(** * q2-micom: the table-reshaping glue, the growth wrapper and the plugin
      registrations, as a shallow embedding.

    Conventions of the embedding.
    - A Python exception is a [Raise] in the [result] type.
    - A float64 cell is a rational ([Q]); the IEEE special values that the
      code can create itself (by dividing by a zero depth) are kept in the
      type [float].  [true_divide] and [depth] are the quotient and the sum
      before rounding; [round64] rounds to the nearest float64, and
      [divide64], [depth64] and [with_relative64] are lines 47 to 50 in
      float64.
    - Text is [string], the bytes of the UTF-8 encoding of a Python string;
      the character classes [\w] and [\s] are those of Python's [re] on
      strings, classes of Unicode code points.
    - A pandas row is an association list from column labels to cells; where
      the code reads fixed columns the row is a record. *)

From Stdlib Require Import List String Ascii Bool Arith NArith ZArith QArith Lia.
From Stdlib Require Import Qfield Qabs Qpower Permutation Sorted.
From Stdlib Require Floats.PrimFloat Floats.FloatOps Floats.SpecFloat.
From Stdlib Require Numbers.Cyclic.Int63.Uint63.
Import ListNotations.

Open Scope string_scope.
Open Scope list_scope.

(** ** Exceptions *)

Inductive exn := KeyError | ValueError | AttributeError.

Inductive result (A : Type) : Type :=
| Ok (a : A)
| Raise (e : exn).
Arguments Ok {A} a.
Arguments Raise {A} e.

Definition bind {A B : Type} (m : result A) (k : A -> result B) : result B :=
  match m with
  | Ok a => k a
  | Raise e => Raise e
  end.

Notation "x <- m ;; k" := (bind m (fun x => k))
  (at level 61, m at next level, right associativity).

(** ** Numbers *)

(** What a float64 division can give when both operands are finite. *)
Inductive float :=
| Fin (q : Q)
| PInf
| NInf
| NaN.

(** numpy's true division of two finite floats, before the quotient is
    rounded: a zero divisor gives NaN for a zero dividend and a signed
    infinity otherwise, with no exception.  The
    divisor is a column sum, so a zero divisor that meets a nonzero dividend
    is the positive zero. *)
Definition true_divide (x d : Q) : float :=
  if Qeq_bool d 0 then
    if Qeq_bool x 0 then NaN
    else if Qle_bool 0 x then PInf else NInf
  else Fin (x / d).

(** [relative > cutoff] on a float column: every comparison with NaN is
    false. *)
Definition gt (x : float) (cutoff : Q) : bool :=
  match x with
  | Fin q => negb (Qle_bool q cutoff)
  | PInf => true
  | NInf => false
  | NaN => false
  end.

(** [pd.notna] on a float cell. *)
Definition notna (x : float) : bool :=
  match x with
  | NaN => false
  | _ => true
  end.

Fixpoint Qsum (l : list Q) : Q :=
  match l with
  | [] => 0
  | x :: l' => x + Qsum l'
  end.

(** ** Rounding to float64 *)

(** The quotient of line 48 is a float64: numpy returns the float64 nearest
    to the exact quotient, the one with an even last bit of two that are
    equally near (IEEE 754, round to nearest even). *)

(** The integer nearest to a number, the even one of two that are equally
    near. *)
Definition round_half_even (y : Q) : Z :=
  let q := (Qnum y / Zpos (Qden y))%Z in
  let r := (Qnum y mod Zpos (Qden y))%Z in
  match (2 * r ?= Zpos (Qden y))%Z with
  | Lt => q
  | Gt => (q + 1)%Z
  | Eq => if Z.even q then q else (q + 1)%Z
  end.

(** The integer [k] with [2 ^ k <= x < 2 ^ (k + 1)], for a positive [x]. *)
Definition ilog2 (x : Q) : Z :=
  let k := (Z.log2 (Qnum x) - Z.log2 (Zpos (Qden x)))%Z in
  if Qle_bool (2 ^ k) x then k else (k - 1)%Z.

(** The exponent of the last of the 53 bits of the float64 numbers around
    [x]; it is never below -1074, that of the subnormal numbers. *)
Definition exponent (x : Q) : Z := Z.max (-1074) (ilog2 (Qabs x) - 52).

(** The multiple of [2 ^ exponent x] nearest to [x]. *)
Definition nearest (x : Q) : Q :=
  let e := exponent x in
  Qred (inject_Z (round_half_even (x / 2 ^ e)) * 2 ^ e).

(** The float64 of an exact result: an infinity from [2 ^ 1024] on. *)
Definition round64 (x : Q) : float :=
  let v := nearest x in
  if Qle_bool (2 ^ 1024) (Qabs v) then
    if Qle_bool 0 v then PInf else NInf
  else Fin v.


(** numpy's true division of a finite float by a float, in float64.  A
    finite number divided by an infinity is a zero. *)
Definition divide64 (x : Q) (d : float) : float :=
  match d with
  | Fin d =>
      match true_divide x d with
      | Fin q => round64 q
      | other => other
      end
  | PInf | NInf => Fin 0
  | NaN => NaN
  end.

(** The sum of a float64 column, a function of the pandas library. *)
Definition Sum : Type := list Q -> float.

(** float64 addition, and the sum that adds the cells in order. *)
Definition add64 (x : float) (y : Q) : float :=
  match x with
  | Fin q => round64 (q + y)
  | other => other
  end.

Definition sequential_sum : Sum :=
  fun column => fold_left add64 column (Fin 0).

(** ** The float64 of the machine *)

(** The kernel's binary64 numbers, read as values of [float]; they serve to
    compare [divide64] with the division of the machine. *)
Module Binary64.

(** The float64 [m * 2 ^ e], for an integer [m] below 2 ^ 53 in size. *)
Definition machine (m e : Z) : PrimFloat.float :=
  let f := PrimFloat.of_uint63 (Uint63.of_Z (Z.abs m)) in
  FloatOps.Z.ldexp (if (m <? 0)%Z then PrimFloat.opp f else f) e.

Definition rational (m e : Z) : Q := Qred (inject_Z m * 2 ^ e).

Definition value (f : PrimFloat.float) : float :=
  match FloatOps.Prim2SF f with
  | SpecFloat.S754_zero _ => Fin 0
  | SpecFloat.S754_finite s m e =>
      Fin (rational (if s then Zneg m else Zpos m) e)
  | SpecFloat.S754_infinity s => if s then NInf else PInf
  | SpecFloat.S754_nan => NaN
  end.

(** The division of the machine and [divide64] agree on two such numbers. *)
Definition agree (x d : Z * Z) : bool :=
  match
    value (PrimFloat.div (machine (fst x) (snd x)) (machine (fst d) (snd d))),
    divide64 (rational (fst x) (snd x)) (value (machine (fst d) (snd d)))
  with
  | Fin p, Fin q => Qeq_bool p q && Qeq_bool (Qred q) q
  | PInf, PInf | NInf, NInf | NaN, NaN => true
  | _, _ => false
  end.

(** The same for the addition of the machine and [add64]. *)
Definition agree_sum (x y : Z * Z) : bool :=
  match
    value (PrimFloat.add (machine (fst x) (snd x)) (machine (fst y) (snd y))),
    add64 (value (machine (fst x) (snd x))) (rational (fst y) (snd y))
  with
  | Fin p, Fin q => Qeq_bool p q && Qeq_bool (Qred q) q
  | PInf, PInf | NInf, NInf | NaN, NaN => true
  | _, _ => false
  end.

Definition divisions : list ((Z * Z) * (Z * Z)) :=
  [((1, 0), (6, 0)); ((3, 0), (10, 0)); ((2, 0), (10, 0)); ((5, 0), (10, 0));
   ((1, 0), (3, 0)); ((2, 0), (3, 0)); ((-1, 0), (3, 0)); ((1, 0), (-3, 0));
   ((0, 0), (5, 0)); ((1, 0), (0, 0)); ((-1, 0), (0, 0)); ((0, 0), (0, 0));
   ((9007199254740991, 0), (3, 0)); ((1, 0), (9007199254740991, 0));
   ((4503599627370497, 0), (4503599627370496, 0));
   ((1, -1020), (3, 53)); ((1, -1022), (3, 0)); ((5, -1074), (2, 0));
   ((3, -1074), (2, 0)); ((1, -1074), (2, 0)); ((1, -1074), (3, 0));
   ((1, 1000), (3, -30)); ((9007199254740991, 971), (1, 0));
   ((9007199254740991, 971), (9007199254740991, -53));
   ((9007199254740991, 971), (9007199254740990, -53));
   ((9007199254740991, 971), (4503599627370496, -52));
   ((1, 1023), (1, -1)); ((-1, 1023), (1, -1)); ((1, 0), (1, 1024))]%Z.

Definition additions : list ((Z * Z) * (Z * Z)) :=
  [((1, 0), (1, 0)); ((3, 0), (2, 0)); ((1, 0), (1, -53)); ((1, 0), (3, -54));
   ((1, 0), (1, -54)); ((9007199254740991, 0), (1, 0));
   ((9007199254740992, 0), (1, 0)); ((9007199254740992, 0), (3, 0));
   ((1, -1074), (1, -1074)); ((1, 0), (-1, 0)); ((1, 0), (-3, -2));
   ((9007199254740991, 971), (9007199254740991, 971));
   ((9007199254740991, 971), (1, 917)); ((9007199254740991, 971), (1, 918));
   ((1, -1), (1, 2))]%Z.

End Binary64.

(** ** Text cells and rows *)

(** A text cell; [None] is a missing value (None or NaN). *)
Definition cell := option string.

Definition cell_eqb (a b : cell) : bool :=
  match a, b with
  | Some x, Some y => String.eqb x y
  | None, None => true
  | _, _ => false
  end.

(** [astype(str)] on a cell. *)
Definition astype_str (c : cell) : string :=
  match c with
  | Some s => s
  | None => "nan"
  end.

(** One row of a frame: column label to value, in column order. *)
Definition Series := list (string * cell).

Fixpoint get (label : string) (row : Series) : cell :=
  match row with
  | [] => None
  | (l, v) :: row' => if String.eqb l label then v else get label row'
  end.

(** [row[label] = v]: overwrite the label where it is, append it otherwise. *)
Fixpoint set_item (label : string) (v : cell) (row : Series) : Series :=
  match row with
  | [] => [(label, v)]
  | (l, w) :: row' =>
      if String.eqb l label then (l, v) :: row'
      else (l, w) :: set_item label v row'
  end.

Record DataFrame := {
  columns : list string;
  rows : list Series
}.

Definition has_column (label : string) (df : DataFrame) : bool :=
  existsb (String.eqb label) (columns df).

(** ** The two regular expressions of build_spec *)

(** A text is the UTF-8 encoding of a Python string, and the classes [\w]
    and [\s] of a pattern on strings are classes of code points. *)

Definition code (c : ascii) : N := N_of_ascii c.

(** The bytes 10xxxxxx, which continue a character. *)
Definition continuation (c : ascii) : bool :=
  (128 <=? code c)%N && (code c <=? 191)%N.

Fixpoint continuations (k : nat) (s : string) : bool :=
  match k, s with
  | O, _ => true
  | S k', String c s' => continuation c && continuations k' s'
  | S _, EmptyString => false
  end.

Definition starts_with_continuation (s : string) : bool :=
  match s with
  | String c _ => continuation c
  | EmptyString => false
  end.

(** The low six bits of the byte at a position. *)
Definition bits (i : nat) (s : string) : N :=
  match String.get i s with
  | Some c => (code c - 128)%N
  | None => 0%N
  end.

(** The code point of the character at the head of a text, and the number of
    its bytes; [None] where no character starts. *)
Definition head_char (s : string) : option (N * nat) :=
  match s with
  | EmptyString => None
  | String c s' =>
      let b := code c in
      if (b <? 128)%N then Some (b, 1%nat)
      else if (b <? 192)%N then None
      else if (b <? 224)%N then
        if continuations 1 s'
        then Some (((b - 192) * 64 + bits 0 s')%N, 2%nat) else None
      else if (b <? 240)%N then
        if continuations 2 s'
        then Some ((((b - 224) * 64 + bits 0 s') * 64 + bits 1 s')%N, 3%nat)
        else None
      else if (b <? 248)%N then
        if continuations 3 s'
        then Some (((((b - 240) * 64 + bits 0 s') * 64 + bits 1 s') * 64
                    + bits 2 s')%N, 4%nat)
        else None
      else None
  end.

Definition in_ranges (ranges : list (N * N)) (cp : N) : bool :=
  existsb (fun r => (fst r <=? cp)%N && (cp <=? snd r)%N) ranges.

(** The code points for which [str.isspace] holds (Unicode 14). *)
Definition space_ranges : list (N * N) :=
  [(9, 13); (28, 32); (133, 133); (160, 160); (5760, 5760); (8192, 8202);
   (8232, 8233); (8239, 8239); (8287, 8287); (12288, 12288)]%N.

(** The code points for which [str.isalnum] holds (Unicode 14). *)
Definition alnum_ranges : list (N * N) :=
  [(48, 57); (65, 90); (97, 122); (170, 170); (178, 179); (181, 181);
   (185, 186); (188, 190); (192, 214); (216, 246); (248, 705); (710, 721);
   (736, 740); (748, 748); (750, 750); (880, 884); (886, 887); (890, 893);
   (895, 895); (902, 902); (904, 906); (908, 908); (910, 929); (931, 1013);
   (1015, 1153); (1162, 1327); (1329, 1366); (1369, 1369); (1376, 1416);
   (1488, 1514); (1519, 1522); (1568, 1610); (1632, 1641); (1646, 1647);
   (1649, 1747); (1749, 1749); (1765, 1766); (1774, 1788); (1791, 1791);
   (1808, 1808); (1810, 1839); (1869, 1957); (1969, 1969); (1984, 2026);
   (2036, 2037); (2042, 2042); (2048, 2069); (2074, 2074); (2084, 2084);
   (2088, 2088); (2112, 2136); (2144, 2154); (2160, 2183); (2185, 2190);
   (2208, 2249); (2308, 2361); (2365, 2365); (2384, 2384); (2392, 2401);
   (2406, 2415); (2417, 2432); (2437, 2444); (2447, 2448); (2451, 2472);
   (2474, 2480); (2482, 2482); (2486, 2489); (2493, 2493); (2510, 2510);
   (2524, 2525); (2527, 2529); (2534, 2545); (2548, 2553); (2556, 2556);
   (2565, 2570); (2575, 2576); (2579, 2600); (2602, 2608); (2610, 2611);
   (2613, 2614); (2616, 2617); (2649, 2652); (2654, 2654); (2662, 2671);
   (2674, 2676); (2693, 2701); (2703, 2705); (2707, 2728); (2730, 2736);
   (2738, 2739); (2741, 2745); (2749, 2749); (2768, 2768); (2784, 2785);
   (2790, 2799); (2809, 2809); (2821, 2828); (2831, 2832); (2835, 2856);
   (2858, 2864); (2866, 2867); (2869, 2873); (2877, 2877); (2908, 2909);
   (2911, 2913); (2918, 2927); (2929, 2935); (2947, 2947); (2949, 2954);
   (2958, 2960); (2962, 2965); (2969, 2970); (2972, 2972); (2974, 2975);
   (2979, 2980); (2984, 2986); (2990, 3001); (3024, 3024); (3046, 3058);
   (3077, 3084); (3086, 3088); (3090, 3112); (3114, 3129); (3133, 3133);
   (3160, 3162); (3165, 3165); (3168, 3169); (3174, 3183); (3192, 3198);
   (3200, 3200); (3205, 3212); (3214, 3216); (3218, 3240); (3242, 3251);
   (3253, 3257); (3261, 3261); (3293, 3294); (3296, 3297); (3302, 3311);
   (3313, 3314); (3332, 3340); (3342, 3344); (3346, 3386); (3389, 3389);
   (3406, 3406); (3412, 3414); (3416, 3425); (3430, 3448); (3450, 3455);
   (3461, 3478); (3482, 3505); (3507, 3515); (3517, 3517); (3520, 3526);
   (3558, 3567); (3585, 3632); (3634, 3635); (3648, 3654); (3664, 3673);
   (3713, 3714); (3716, 3716); (3718, 3722); (3724, 3747); (3749, 3749);
   (3751, 3760); (3762, 3763); (3773, 3773); (3776, 3780); (3782, 3782);
   (3792, 3801); (3804, 3807); (3840, 3840); (3872, 3891); (3904, 3911);
   (3913, 3948); (3976, 3980); (4096, 4138); (4159, 4169); (4176, 4181);
   (4186, 4189); (4193, 4193); (4197, 4198); (4206, 4208); (4213, 4225);
   (4238, 4238); (4240, 4249); (4256, 4293); (4295, 4295); (4301, 4301);
   (4304, 4346); (4348, 4680); (4682, 4685); (4688, 4694); (4696, 4696);
   (4698, 4701); (4704, 4744); (4746, 4749); (4752, 4784); (4786, 4789);
   (4792, 4798); (4800, 4800); (4802, 4805); (4808, 4822); (4824, 4880);
   (4882, 4885); (4888, 4954); (4969, 4988); (4992, 5007); (5024, 5109);
   (5112, 5117); (5121, 5740); (5743, 5759); (5761, 5786); (5792, 5866);
   (5870, 5880); (5888, 5905); (5919, 5937); (5952, 5969); (5984, 5996);
   (5998, 6000); (6016, 6067); (6103, 6103); (6108, 6108); (6112, 6121);
   (6128, 6137); (6160, 6169); (6176, 6264); (6272, 6276); (6279, 6312);
   (6314, 6314); (6320, 6389); (6400, 6430); (6470, 6509); (6512, 6516);
   (6528, 6571); (6576, 6601); (6608, 6618); (6656, 6678); (6688, 6740);
   (6784, 6793); (6800, 6809); (6823, 6823); (6917, 6963); (6981, 6988);
   (6992, 7001); (7043, 7072); (7086, 7141); (7168, 7203); (7232, 7241);
   (7245, 7293); (7296, 7304); (7312, 7354); (7357, 7359); (7401, 7404);
   (7406, 7411); (7413, 7414); (7418, 7418); (7424, 7615); (7680, 7957);
   (7960, 7965); (7968, 8005); (8008, 8013); (8016, 8023); (8025, 8025);
   (8027, 8027); (8029, 8029); (8031, 8061); (8064, 8116); (8118, 8124);
   (8126, 8126); (8130, 8132); (8134, 8140); (8144, 8147); (8150, 8155);
   (8160, 8172); (8178, 8180); (8182, 8188); (8304, 8305); (8308, 8313);
   (8319, 8329); (8336, 8348); (8450, 8450); (8455, 8455); (8458, 8467);
   (8469, 8469); (8473, 8477); (8484, 8484); (8486, 8486); (8488, 8488);
   (8490, 8493); (8495, 8505); (8508, 8511); (8517, 8521); (8526, 8526);
   (8528, 8585); (9312, 9371); (9450, 9471); (10102, 10131); (11264, 11492);
   (11499, 11502); (11506, 11507); (11517, 11517); (11520, 11557);
   (11559, 11559); (11565, 11565); (11568, 11623); (11631, 11631);
   (11648, 11670); (11680, 11686); (11688, 11694); (11696, 11702);
   (11704, 11710); (11712, 11718); (11720, 11726); (11728, 11734);
   (11736, 11742); (11823, 11823); (12293, 12295); (12321, 12329);
   (12337, 12341); (12344, 12348); (12353, 12438); (12445, 12447);
   (12449, 12538); (12540, 12543); (12549, 12591); (12593, 12686);
   (12690, 12693); (12704, 12735); (12784, 12799); (12832, 12841);
   (12872, 12879); (12881, 12895); (12928, 12937); (12977, 12991);
   (13312, 19903); (19968, 42124); (42192, 42237); (42240, 42508);
   (42512, 42539); (42560, 42606); (42623, 42653); (42656, 42735);
   (42775, 42783); (42786, 42888); (42891, 42954); (42960, 42961);
   (42963, 42963); (42965, 42969); (42994, 43009); (43011, 43013);
   (43015, 43018); (43020, 43042); (43056, 43061); (43072, 43123);
   (43138, 43187); (43216, 43225); (43250, 43255); (43259, 43259);
   (43261, 43262); (43264, 43301); (43312, 43334); (43360, 43388);
   (43396, 43442); (43471, 43481); (43488, 43492); (43494, 43518);
   (43520, 43560); (43584, 43586); (43588, 43595); (43600, 43609);
   (43616, 43638); (43642, 43642); (43646, 43695); (43697, 43697);
   (43701, 43702); (43705, 43709); (43712, 43712); (43714, 43714);
   (43739, 43741); (43744, 43754); (43762, 43764); (43777, 43782);
   (43785, 43790); (43793, 43798); (43808, 43814); (43816, 43822);
   (43824, 43866); (43868, 43881); (43888, 44002); (44016, 44025);
   (44032, 55203); (55216, 55238); (55243, 55291); (63744, 64109);
   (64112, 64217); (64256, 64262); (64275, 64279); (64285, 64285);
   (64287, 64296); (64298, 64310); (64312, 64316); (64318, 64318);
   (64320, 64321); (64323, 64324); (64326, 64433); (64467, 64829);
   (64848, 64911); (64914, 64967); (65008, 65019); (65136, 65140);
   (65142, 65276); (65296, 65305); (65313, 65338); (65345, 65370);
   (65382, 65470); (65474, 65479); (65482, 65487); (65490, 65495);
   (65498, 65500); (65536, 65547); (65549, 65574); (65576, 65594);
   (65596, 65597); (65599, 65613); (65616, 65629); (65664, 65786);
   (65799, 65843); (65856, 65912); (65930, 65931); (66176, 66204);
   (66208, 66256); (66273, 66299); (66304, 66339); (66349, 66378);
   (66384, 66421); (66432, 66461); (66464, 66499); (66504, 66511);
   (66513, 66517); (66560, 66717); (66720, 66729); (66736, 66771);
   (66776, 66811); (66816, 66855); (66864, 66915); (66928, 66938);
   (66940, 66954); (66956, 66962); (66964, 66965); (66967, 66977);
   (66979, 66993); (66995, 67001); (67003, 67004); (67072, 67382);
   (67392, 67413); (67424, 67431); (67456, 67461); (67463, 67504);
   (67506, 67514); (67584, 67589); (67592, 67592); (67594, 67637);
   (67639, 67640); (67644, 67644); (67647, 67669); (67672, 67702);
   (67705, 67742); (67751, 67759); (67808, 67826); (67828, 67829);
   (67835, 67867); (67872, 67897); (67968, 68023); (68028, 68047);
   (68050, 68096); (68112, 68115); (68117, 68119); (68121, 68149);
   (68160, 68168); (68192, 68222); (68224, 68255); (68288, 68295);
   (68297, 68324); (68331, 68335); (68352, 68405); (68416, 68437);
   (68440, 68466); (68472, 68497); (68521, 68527); (68608, 68680);
   (68736, 68786); (68800, 68850); (68858, 68899); (68912, 68921);
   (69216, 69246); (69248, 69289); (69296, 69297); (69376, 69415);
   (69424, 69445); (69457, 69460); (69488, 69505); (69552, 69579);
   (69600, 69622); (69635, 69687); (69714, 69743); (69745, 69746);
   (69749, 69749); (69763, 69807); (69840, 69864); (69872, 69881);
   (69891, 69926); (69942, 69951); (69956, 69956); (69959, 69959);
   (69968, 70002); (70006, 70006); (70019, 70066); (70081, 70084);
   (70096, 70106); (70108, 70108); (70113, 70132); (70144, 70161);
   (70163, 70187); (70272, 70278); (70280, 70280); (70282, 70285);
   (70287, 70301); (70303, 70312); (70320, 70366); (70384, 70393);
   (70405, 70412); (70415, 70416); (70419, 70440); (70442, 70448);
   (70450, 70451); (70453, 70457); (70461, 70461); (70480, 70480);
   (70493, 70497); (70656, 70708); (70727, 70730); (70736, 70745);
   (70751, 70753); (70784, 70831); (70852, 70853); (70855, 70855);
   (70864, 70873); (71040, 71086); (71128, 71131); (71168, 71215);
   (71236, 71236); (71248, 71257); (71296, 71338); (71352, 71352);
   (71360, 71369); (71424, 71450); (71472, 71483); (71488, 71494);
   (71680, 71723); (71840, 71922); (71935, 71942); (71945, 71945);
   (71948, 71955); (71957, 71958); (71960, 71983); (71999, 71999);
   (72001, 72001); (72016, 72025); (72096, 72103); (72106, 72144);
   (72161, 72161); (72163, 72163); (72192, 72192); (72203, 72242);
   (72250, 72250); (72272, 72272); (72284, 72329); (72349, 72349);
   (72368, 72440); (72704, 72712); (72714, 72750); (72768, 72768);
   (72784, 72812); (72818, 72847); (72960, 72966); (72968, 72969);
   (72971, 73008); (73030, 73030); (73040, 73049); (73056, 73061);
   (73063, 73064); (73066, 73097); (73112, 73112); (73120, 73129);
   (73440, 73458); (73648, 73648); (73664, 73684); (73728, 74649);
   (74752, 74862); (74880, 75075); (77712, 77808); (77824, 78894);
   (82944, 83526); (92160, 92728); (92736, 92766); (92768, 92777);
   (92784, 92862); (92864, 92873); (92880, 92909); (92928, 92975);
   (92992, 92995); (93008, 93017); (93019, 93025); (93027, 93047);
   (93053, 93071); (93760, 93846); (93952, 94026); (94032, 94032);
   (94099, 94111); (94176, 94177); (94179, 94179); (94208, 100343);
   (100352, 101589); (101632, 101640); (110576, 110579); (110581, 110587);
   (110589, 110590); (110592, 110882); (110928, 110930); (110948, 110951);
   (110960, 111355); (113664, 113770); (113776, 113788); (113792, 113800);
   (113808, 113817); (119520, 119539); (119648, 119672); (119808, 119892);
   (119894, 119964); (119966, 119967); (119970, 119970); (119973, 119974);
   (119977, 119980); (119982, 119993); (119995, 119995); (119997, 120003);
   (120005, 120069); (120071, 120074); (120077, 120084); (120086, 120092);
   (120094, 120121); (120123, 120126); (120128, 120132); (120134, 120134);
   (120138, 120144); (120146, 120485); (120488, 120512); (120514, 120538);
   (120540, 120570); (120572, 120596); (120598, 120628); (120630, 120654);
   (120656, 120686); (120688, 120712); (120714, 120744); (120746, 120770);
   (120772, 120779); (120782, 120831); (122624, 122654); (123136, 123180);
   (123191, 123197); (123200, 123209); (123214, 123214); (123536, 123565);
   (123584, 123627); (123632, 123641); (124896, 124902); (124904, 124907);
   (124909, 124910); (124912, 124926); (124928, 125124); (125127, 125135);
   (125184, 125251); (125259, 125259); (125264, 125273); (126065, 126123);
   (126125, 126127); (126129, 126132); (126209, 126253); (126255, 126269);
   (126464, 126467); (126469, 126495); (126497, 126498); (126500, 126500);
   (126503, 126503); (126505, 126514); (126516, 126519); (126521, 126521);
   (126523, 126523); (126530, 126530); (126535, 126535); (126537, 126537);
   (126539, 126539); (126541, 126543); (126545, 126546); (126548, 126548);
   (126551, 126551); (126553, 126553); (126555, 126555); (126557, 126557);
   (126559, 126559); (126561, 126562); (126564, 126564); (126567, 126570);
   (126572, 126578); (126580, 126583); (126585, 126588); (126590, 126590);
   (126592, 126601); (126603, 126619); (126625, 126627); (126629, 126633);
   (126635, 126651); (127232, 127244); (130032, 130041); (131072, 173791);
   (173824, 177976); (177984, 178205); (178208, 183969); (183984, 191456);
   (194560, 195101); (196608, 201546)]%N.

(** [\s] *)
Definition is_space (cp : N) : bool := in_ranges space_ranges cp.

(** [\w] *)
Definition is_word (cp : N) : bool := (cp =? 95)%N || in_ranges alnum_ranges cp.

(** The number of bytes of the white-space character at the head of a text;
    0 where there is none. *)
Definition space_length (s : string) : nat :=
  match head_char s with
  | Some (cp, k) => if is_space cp then k else O
  | None => O
  end.

(** The same for a character of [\w]. *)
Definition word_length (s : string) : nat :=
  match head_char s with
  | Some (cp, k) => if is_word cp then k else O
  | None => O
  end.

Definition underscore : ascii := "_"%char.
Definition semicolon : ascii := ";"%char.

(** The text without its first [k] bytes. *)
Fixpoint drop (k : nat) (s : string) : string :=
  match k, s with
  | S k', String _ s' => drop k' s'
  | _, _ => s
  end.

(** The number of bytes of the match of [\w__] at the head of a text; 0 where
    there is none. *)
Definition match_length (s : string) : nat :=
  match word_length s with
  | O => O
  | S k => if prefix "__" (drop (S k) s) then (S k + 2)%nat else O
  end.

(** [str.replace("\\w__", "")], the pattern read as a regular expression:
    every match, leftmost first, without overlap, is deleted.  [skip] counts
    the bytes of a match still to be dropped. *)
Fixpoint replace_prefix (skip : nat) (s : string) : string :=
  match s with
  | EmptyString => EmptyString
  | String c s' =>
      match skip with
      | S k => replace_prefix k s'
      | O =>
          match match_length s with
          | S n => replace_prefix n s'
          | O => String c (replace_prefix 0 s')
          end
      end
  end.

Definition str_replace (s : string) : string := replace_prefix 0 s.

(** [str.split(";\\s*")]: the current field and the fields after it.
    [after_sep] holds while the white space behind a semicolon is being
    consumed, [skip] counts the bytes of a white-space character still to be
    dropped. *)
Fixpoint split_fields (skip : nat) (after_sep : bool) (s : string)
  : string * list string :=
  match s with
  | EmptyString => (EmptyString, [])
  | String c s' =>
      match skip with
      | S k => split_fields k after_sep s'
      | O =>
          match (if after_sep then space_length s else O) with
          | S k => split_fields k true s'
          | O =>
              if Ascii.eqb c semicolon then
                let (f, fs) := split_fields 0 true s' in (EmptyString, f :: fs)
              else
                let (f, fs) := split_fields 0 false s' in (String c f, fs)
          end
      end
  end.

Definition str_split (s : string) : list string :=
  let (f, fs) := split_fields 0 false s in f :: fs.

(** [str.replace(old, new)] of Python, for a non-empty [old]. *)
Fixpoint replace_from (old new : string) (skip : nat) (s : string) : string :=
  match s with
  | EmptyString => EmptyString
  | String c s' =>
      match skip with
      | S k => replace_from old new k s'
      | O =>
          if prefix old s then new ++ replace_from old new (String.length old - 1) s'
          else String c (replace_from old new 0 s')
      end
  end.

Definition replace (s old new : string) : string := replace_from old new 0 s.

(** ["|".join(...)] and friends. *)
Fixpoint join (sep : string) (l : list string) : string :=
  match l with
  | [] => EmptyString
  | [x] => x
  | x :: l' => x ++ sep ++ join sep l'
  end.

(** [Series.unique()] *)
Fixpoint unique (l : list string) : list string :=
  match l with
  | [] => []
  | x :: l' => x :: filter (fun y => negb (String.eqb x y)) (unique l')
  end.

(** ** build_spec: the taxonomy side *)

Inductive Rank := kingdom | phylum | class | order | family | genus | species.

Definition RANKS : list Rank :=
  [kingdom; phylum; class; order; family; genus; species].

Definition rank_name (r : Rank) : string :=
  match r with
  | kingdom => "kingdom"
  | phylum => "phylum"
  | class => "class"
  | order => "order"
  | family => "family"
  | genus => "genus"
  | species => "species"
  end.

(** A string series: index label and value. *)
Definition StrSeries := list (string * string).

(** [str.split(..., expand=True)]: one column per field, short rows padded
    with missing values up to the widest row. *)
Definition expand (width : nat) (fields : list string) : list cell :=
  map Some fields ++ repeat None (width - List.length fields).

Definition max_width (parts : list (string * list string)) : nat :=
  list_max (map (fun p => List.length (snd p)) parts).

(** Lines 30 to 33: the frame [taxa], indexed by feature id.  Labelling the
    columns with RANKS fails unless the split gave seven columns. *)
Definition taxa_frame (taxonomy : StrSeries) : result (list (string * Series)) :=
  let parts := map (fun e => (fst e, str_split (str_replace (snd e)))) taxonomy in
  let width := max_width parts in
  if (width =? List.length RANKS)%nat then
    Ok (map (fun p =>
               (fst p,
                combine (map rank_name RANKS) (expand width (snd p))
                  ++ [("taxid", Some (fst p))]))
            parts)
  else Raise ValueError.

(** [taxa.loc[id_, rank]]; a feature id labels one row of a taxonomy. *)
Fixpoint loc (taxa : list (string * Series)) (id_ : string) (rank : Rank)
  : result cell :=
  match taxa with
  | [] => Raise KeyError
  | (i, row) :: taxa' =>
      if String.eqb i id_ then Ok (get (rank_name rank) row)
      else loc taxa' id_ rank
  end.

(** ** build_spec: the abundance side *)

(** A biom table: one line of [data] per observation id, one entry per
    sample id. *)
Record Table (I : Type) := {
  ids : list I;
  samples : list string;
  data : list (list Q)
}.
Arguments ids {I} t.
Arguments samples {I} t.
Arguments data {I} t.

(** The type of [Table.collapse(f, axis="observation")], a function of the
    biom library. *)
Definition Collapse : Type :=
  (string -> result cell) -> Table string -> result (Table cell).

(** A row of the melted frame (line 44). *)
Record Melted := {
  sample_id : string;
  taxon : cell;
  abundance : Q
}.

(** The same row with the column [relative] (line 48). *)
Record Long := {
  melted :> Melted;
  relative : float
}.

(** Lines 39 to 46.  [to_dataframe(dense=True).T] has the samples as index and
    one column per collapsed id; line 42 writes the column [sample_id] (over
    a collapsed id of that name, if there is one); [melt] then lists every
    other column, sample by sample. *)
Definition melt (t : Table cell) : list Melted :=
  flat_map
    (fun col =>
       map (fun sv => {| sample_id := fst sv; taxon := fst col;
                         abundance := snd sv |})
           (combine (samples t) (snd col)))
    (filter (fun col => negb (cell_eqb (fst col) (Some "sample_id")))
            (combine (ids t) (data t))).

Definition of_sample (s : string) (r : Melted) : bool :=
  String.eqb (sample_id r) s.

(** Line 47, read at one sample: [groupby("sample_id").abundance.sum()]. *)
Definition depth (long : list Melted) (s : string) : Q :=
  Qsum (map abundance (filter (of_sample s) long)).

(** Lines 48 to 50. *)
Definition with_relative (long : list Melted) : list Long :=
  map (fun r => {| melted := r;
                   relative := true_divide (abundance r)
                                 (depth long (sample_id r)) |})
      long.

(** Lines 30 to 50: the long abundance frame that goes into the merge. *)
Definition abundance_frame (collapse : Collapse) (abundance : Table string)
    (taxonomy : StrSeries) (rank : Rank) : result (list Long) :=
  taxa <- taxa_frame taxonomy ;;
  collapsed <- collapse (fun id_ => loc taxa id_ rank) abundance ;;
  Ok (with_relative (melt collapsed)).

(** ** build_spec: the abundance side in float64 *)

(** Line 47 in float64, read at one sample. *)
Definition depth64 (sum : Sum) (long : list Melted) (s : string) : float :=
  sum (map abundance (filter (of_sample s) long)).

(** Lines 48 to 50 in float64. *)
Definition with_relative64 (sum : Sum) (long : list Melted) : list Long :=
  map (fun r => {| melted := r;
                   relative := divide64 (abundance r)
                                 (depth64 sum long (sample_id r)) |})
      long.

(** Lines 30 to 50 in float64. *)
Definition abundance_frame64 (sum : Sum) (collapse : Collapse)
    (abundance : Table string) (taxonomy : StrSeries) (rank : Rank)
  : result (list Long) :=
  taxa <- taxa_frame taxonomy ;;
  collapsed <- collapse (fun id_ => loc taxa id_ rank) abundance ;;
  Ok (with_relative64 sum (melt collapsed)).

(** ** build_spec: the model database side *)

Record SBMLDirectory := {
  sbml_manifest : DataFrame;
  sbml_files_path_maker : cell -> string
}.

(** Lines 16 to 19; [df] is never empty. *)
Definition reduce_group (df : list Series) : Series :=
  set_item "file" (Some (join "|" (map (fun r => astype_str (get "file" r)) df)))
           (hd [] df).

Fixpoint insert_sorted (k : string) (ks : list string) : list string :=
  match ks with
  | [] => [k]
  | k' :: ks' =>
      if String.leb k k' then k :: ks else k' :: insert_sorted k ks'
  end.

Fixpoint sort (ks : list string) : list string :=
  match ks with
  | [] => []
  | k :: ks' => insert_sorted k (sort ks')
  end.

(** The values of a column that are not missing. *)
Definition present (label : string) (rows : list Series) : list string :=
  flat_map (fun r => match get label r with
                     | Some k => [k]
                     | None => []
                     end)
           rows.

(** The group keys of [groupby(label)]: the distinct values that are not
    missing, sorted. *)
Definition group_keys (label : string) (rows : list Series) : list string :=
  sort (unique (present label rows)).

(** The rows of one group, in the order of the frame. *)
Definition group (label k : string) (rows : list Series) : list Series :=
  filter (fun r => cell_eqb (get label r) (Some k)) rows.

(** [groupby(label).apply(f).reset_index(drop=True)] *)
Definition groupby_apply (label : string) (f : list Series -> Series)
    (rows : list Series) : list Series :=
  map (fun k => f (group label k rows)) (group_keys label rows).

(** Lines 51 to 57.  (What [apply] returns for a manifest without any group
    depends on the version of pandas; here it is the empty frame.) *)
Definition model_files (models : SBMLDirectory) (rank : Rank)
  : result (list Series) :=
  let manifest := sbml_manifest models in
  if has_column "id" manifest then
    let with_file :=
      map (fun r => set_item "file"
                      (Some (sbml_files_path_maker models (get "id" r))) r)
          (rows manifest) in
    if has_column (rank_name rank) manifest then
      Ok (groupby_apply (rank_name rank) reduce_group with_file)
    else Raise KeyError
  else Raise AttributeError.

(** ** build_spec: merge and cutoff *)

(** A row of the merged frame: the columns of the model row, then those of
    the abundance row. *)
Record Spec := {
  model_file : Series;
  long :> Long
}.

(** Line 59: [pd.merge(model_files, abundance, on=rank)], an inner join. *)
Definition merge (left : list Series) (right : list Long) (rank : Rank)
  : list Spec :=
  flat_map
    (fun m =>
       map (fun a => {| model_file := m; long := a |})
           (filter (fun a : Long => cell_eqb (get (rank_name rank) m) (taxon a))
                   right))
    left.

(** The frame of line 59.  A manifest with a column [relative] of its own
    makes the merge rename both, and line 60 then finds no such column. *)
Definition merged_frame (collapse : Collapse) (abundance : Table string)
    (taxonomy : StrSeries) (models : SBMLDirectory) (rank : Rank)
  : result (list Spec) :=
  long <- abundance_frame collapse abundance taxonomy rank ;;
  files <- model_files models rank ;;
  if has_column "relative" (sbml_manifest models) then Raise AttributeError
  else Ok (merge files long rank).

Definition build_spec (collapse : Collapse) (abundance : Table string)
    (taxonomy : StrSeries) (models : SBMLDirectory) (rank : Rank) (cutoff : Q)
  : result (list Spec) :=
  micom_taxonomy <- merged_frame collapse abundance taxonomy models rank ;;
  Ok (filter (fun r : Spec => gt (relative r) cutoff) micom_taxonomy).

(** ** The biom library's collapse *)

Fixpoint partition_keys (f : string -> result cell) (l : list string)
  : result (list cell) :=
  match l with
  | [] => Ok []
  | i :: l' => k <- f i ;; ks <- partition_keys f l' ;; Ok (k :: ks)
  end.

Fixpoint distinct (l : list cell) : list cell :=
  match l with
  | [] => []
  | k :: l' => k :: filter (fun k' => negb (cell_eqb k k')) (distinct l')
  end.

Definition vector_add (u v : list Q) : list Q :=
  map (fun p => Qred (fst p + snd p)) (combine u v).

(** One partition: the sum of its lines, divided by their number. *)
Definition collapse_partition (n : nat) (lines : list (list Q)) : list Q :=
  map (fun x => Qred (x / inject_Z (Z.of_nat (List.length lines))))
      (fold_left vector_add lines (repeat 0 n)).

(** [Table.collapse(f, axis="observation")] with the defaults of biom
    (one-to-one, [norm=True]): the observations are partitioned by the value
    of [f] on their id, in the order in which the values first appear, and an
    error of [f] is the error of the call. *)
Definition biom_collapse : Collapse :=
  fun f t =>
    keys <- partition_keys f (ids t) ;;
    let parts := distinct keys in
    Ok {| ids := parts;
          samples := samples t;
          data :=
            map (fun k =>
                   collapse_partition (List.length (samples t))
                     (map snd
                        (filter (fun kv => cell_eqb (fst kv) k)
                                (combine keys (data t)))))
                parts |}.

(** ** Calls into the libraries *)

Record CommunityModelDirectory := {
  manifest : DataFrame;
  model_files_path_maker : string -> string;
  manifest_path_maker : string
}.

Record MicomResultsDirectory := {
  growth_rates_path_maker : string;
  exchange_fluxes_path_maker : string
}.

(** A row of the exchanges frame: its column [flux] and the other columns. *)
Record Exchange := {
  exchange : Series;
  flux : float
}.

Inductive Worker := build_and_save.

(** What build and grow ask of micom and pandas, in the order of the calls. *)
Inductive call :=
| workflow (f : Worker) (args : list (string * list Spec * string))
    (threads : Z)
| tax_to_csv (tax : list Spec) (path : string)
| mw_grow (manifest_ : DataFrame) (model_folder : string) (medium : DataFrame)
    (tradeoff : Q) (threads : Z)
| growth_to_csv (growth : DataFrame) (path : string)
| exchanges_to_parquet (exchanges : list Exchange) (path : string).

(** A computation: the calls it made and its outcome. *)
Definition IO (A : Type) : Type := (list call * result A)%type.

Definition ret {A : Type} (a : A) : IO A := ([], Ok a).

Definition lift {A : Type} (r : result A) : IO A := ([], r).

Definition perform (c : call) : IO unit := ([c], Ok tt).

Definition bindIO {A B : Type} (m : IO A) (k : A -> IO B) : IO B :=
  match m with
  | (t, Ok a) => let (t', r) := k a in (t ++ t', r)
  | (t, Raise e) => (t, Raise e)
  end.

Notation "x <~ m ;; k" := (bindIO m (fun x => k))
  (at level 61, m at next level, right associativity).

Definition calls {A : Type} (m : IO A) : list call := fst m.
Definition outcome {A : Type} (m : IO A) : result A := snd m.

(** ** build *)

(** Lines 70 to 92.  [fresh] is the directory that
    [CommunityModelDirectory()] creates.  A manifest with a column
    [sample_id] of its own makes the merge rename both, and line 81 then
    finds no such column. *)
Definition build (collapse : Collapse) (fresh : CommunityModelDirectory)
    (abundance : Table string) (taxonomy : StrSeries) (models : SBMLDirectory)
    (rank : Rank) (threads : Z) (cutoff : Q) : IO CommunityModelDirectory :=
  tax <~ lift (build_spec collapse abundance taxonomy models rank cutoff) ;;
  _ <~ lift (if has_column "sample_id" (sbml_manifest models)
             then Raise AttributeError else Ok tt) ;;
  let models := fresh in
  let samples := unique (map (fun r : Spec => sample_id r) tax) in
  let args :=
    map (fun s =>
           (s,
            filter (fun r : Spec => String.eqb (sample_id r) s) tax,
            model_files_path_maker models s))
        samples in
  _ <~ perform (workflow build_and_save args threads) ;;
  _ <~ perform (tax_to_csv tax (manifest_path_maker models)) ;;
  ret models.

(** ** grow *)

(** The type of [micom.workflows.grow]. *)
Definition MwGrow : Type :=
  DataFrame -> string -> DataFrame -> Q -> Z ->
  result (DataFrame * list Exchange).

(** Lines 11 to 30.  [fresh] is the directory that
    [MicomResultsDirectory()] creates. *)
Definition grow (mw : MwGrow) (fresh : MicomResultsDirectory)
    (models : CommunityModelDirectory) (medium : DataFrame) (tradeoff : Q)
    (threads : Z) : IO MicomResultsDirectory :=
  let out := fresh in
  let model_folder :=
    replace (model_files_path_maker models "blub") "blub.pickle" "" in
  let manifest := manifest models in
  _ <~ perform (mw_grow manifest model_folder medium tradeoff threads) ;;
  res <~ lift (mw manifest model_folder medium tradeoff threads) ;;
  let growth := fst res in
  let exchanges := snd res in
  _ <~ perform (growth_to_csv growth (growth_rates_path_maker out)) ;;
  _ <~ perform (exchanges_to_parquet
                  (filter (fun e => notna (flux e)) exchanges)
                  (exchange_fluxes_path_maker out)) ;;
  ret out.

(** ** plugin_setup: the registered schemas *)

Inductive Primitive := Str | Int | Float | Metadata.

(** The host's [Range(start, end, inclusive_start=True, inclusive_end=False)];
    a bound that is None is absent. *)
Record Range := {
  start : option Q;
  stop : option Q;
  inclusive_start : bool;
  inclusive_end : bool
}.

Definition default_inclusive_start : bool := true.
Definition default_inclusive_end : bool := false.

Inductive Predicate :=
| Choices (names : list string)
| InRange (r : Range).

(** [T % P], or [T] alone. *)
Record ParamType := {
  primitive : Primitive;
  predicate : option Predicate
}.

(** The host's membership test of a range. *)
Definition is_element (r : Range) (v : Q) : bool :=
  match start r with
  | Some lo =>
      if inclusive_start r then Qle_bool lo v else negb (Qle_bool v lo)
  | None => true
  end
  &&
  match stop r with
  | Some hi =>
      if inclusive_end r then Qle_bool v hi else negb (Qle_bool hi v)
  | None => true
  end.

(** An integral number: what the host hands to an Int parameter. *)
Definition is_integer (v : Q) : bool :=
  (Qnum v mod Zpos (Qden v) =? 0)%Z.

(** Does a schema admit a number?  The primitive type is tested first: Int
    takes the integral numbers, Float every number, Str and Metadata none;
    then the predicate, and a choice among names holds of no number. *)
Definition admits (p : ParamType) (v : Q) : bool :=
  match primitive p with
  | Int => is_integer v
  | Float => true
  | Str | Metadata => false
  end
  &&
  match predicate p with
  | Some (InRange r) => is_element r v
  | Some (Choices _) => false
  | None => true
  end.

Inductive Function := q2_micom_db | q2_micom_build | q2_micom_grow
                    | q2_micom_tradeoff.

Record Registration := {
  function : Function;
  inputs : list (string * string);
  parameters : list (string * ParamType);
  outputs : list (string * string);
  input_descriptions : list string;
  parameter_descriptions : list string
}.

Definition db_registration : Registration := {|
  function := q2_micom_db;
  inputs := [];
  parameters := [("meta", {| primitive := Metadata; predicate := None |});
                 ("folder", {| primitive := Str; predicate := None |})];
  outputs := [("metabolic_models", "MetabolicModels[SBML]")];
  input_descriptions := [];
  parameter_descriptions := ["meta"; "folder"]
|}.

Definition build_registration : Registration := {|
  function := q2_micom_build;
  inputs := [("abundance", "FeatureTable[Frequency | RelativeFrequency]");
             ("taxonomy", "FeatureData[Taxonomy]");
             ("models", "MetabolicModels[SBML]");
             ("medium", "MicomMedium")];
  parameters :=
    [("rank", {| primitive := Str;
                 predicate := Some (Choices (map rank_name RANKS)) |});
     ("threads", {| primitive := Int;
                    predicate := Some (InRange
                      {| start := Some 1; stop := None;
                         inclusive_start := default_inclusive_start;
                         inclusive_end := default_inclusive_end |}) |});
     ("cutoff", {| primitive := Float;
                   predicate := Some (InRange
                     {| start := Some 0; stop := Some 1;
                        inclusive_start := default_inclusive_start;
                        inclusive_end := default_inclusive_end |}) |})];
  outputs := [("community_models", "CommunityModels[Pickle]")];
  input_descriptions := ["abundance"; "taxonomy"; "models"; "medium"];
  parameter_descriptions := ["rank"; "threads"]
|}.

Definition grow_registration : Registration := {|
  function := q2_micom_grow;
  inputs := [("models", "CommunityModels[Pickle]")];
  parameters :=
    [("tradeoff", {| primitive := Float;
                     predicate := Some (InRange
                       {| start := Some 0; stop := Some 1;
                          inclusive_start := false;
                          inclusive_end := true |}) |});
     ("threads", {| primitive := Int;
                    predicate := Some (InRange
                      {| start := Some 1; stop := None;
                         inclusive_start := default_inclusive_start;
                         inclusive_end := default_inclusive_end |}) |})];
  outputs := [("results", "MicomResults")];
  input_descriptions := ["models"];
  parameter_descriptions := ["tradeoff"; "threads"]
|}.

Definition tradeoff_registration : Registration := {|
  function := q2_micom_tradeoff;
  inputs := [("models", "CommunityModels[Pickle]")];
  parameters :=
    [("tradeoff_min", {| primitive := Float;
                         predicate := Some (InRange
                           {| start := Some 0; stop := Some 1;
                              inclusive_start := false;
                              inclusive_end := default_inclusive_end |}) |});
     ("tradeoff_max", {| primitive := Float;
                         predicate := Some (InRange
                           {| start := Some 0; stop := Some 1;
                              inclusive_start := default_inclusive_start;
                              inclusive_end := true |}) |});
     ("step", {| primitive := Float;
                 predicate := Some (InRange
                   {| start := Some 0; stop := Some 1;
                      inclusive_start := default_inclusive_start;
                      inclusive_end := default_inclusive_end |}) |});
     ("threads", {| primitive := Int; predicate := None |})];
  outputs := [("results", "TradeoffResults")];
  input_descriptions := ["models"];
  parameter_descriptions := ["tradeoff_min"; "tradeoff_max"; "step"; "threads"]
|}.

Definition registrations : list Registration :=
  [db_registration; build_registration; grow_registration;
   tradeoff_registration].

(** The schema registered under a parameter name. *)
Fixpoint parameter (name : string) (l : list (string * ParamType))
  : option ParamType :=
  match l with
  | [] => None
  | (n, p) :: l' => if String.eqb n name then Some p else parameter name l'
  end.

(** The parameters of the registered functions, from their [def] lines
    (_build.py line 70, _growth.py line 11); those of db and tradeoff are not
    recorded. *)
Definition signature (f : Function) : option (list string) :=
  match f with
  | q2_micom_build =>
      Some ["abundance"; "taxonomy"; "models"; "rank"; "threads"; "cutoff"]
  | q2_micom_grow => Some ["models"; "medium"; "tradeoff"; "threads"]
  | q2_micom_db => None
  | q2_micom_tradeoff => None
  end.

Definition registered_names (r : Registration) : list string :=
  map fst (inputs r) ++ map fst (parameters r).

Definition mem (x : string) (l : list string) : bool :=
  existsb (String.eqb x) l.

(** Every registered name is a parameter of the function and every parameter
    is registered. *)
Definition matches_signature (r : Registration) (sig : list string) : bool :=
  forallb (fun n => mem n sig) (registered_names r)
  && forallb (fun p => mem p (registered_names r)) sig.

(** Does the schema registered under a parameter name admit a number?  A
    name that is not registered admits nothing. *)
Definition accepts (r : Registration) (name : string) (v : Q) : bool :=
  match parameter name (parameters r) with
  | Some p => admits p v
  | None => false
  end.

(** The comparison of a registration with the function it registers, where
    the function is at hand. *)
Definition registration_ok (r : Registration) : option bool :=
  option_map (matches_signature r) (signature (function r)).

(** ** Observations on frames, runs and texts *)

(** [x > cutoff] as a proposition. *)
Definition exceeds (x : float) (cutoff : Q) : Prop :=
  match x with
  | Fin q => cutoff < q
  | PInf => True
  | NInf => False
  | NaN => False
  end.


(** The manifest, folder, medium and tradeoff of every call of micom's grow
    in a run. *)
Definition simulations (t : list call)
  : list (DataFrame * string * DataFrame * Q) :=
  flat_map (fun c => match c with
                     | mw_grow m folder medium tradeoff _ =>
                         [(m, folder, medium, tradeoff)]
                     | _ => []
                     end)
           t.

(** The position of a rank among the columns of [taxa]. *)
Definition rank_index (r : Rank) : nat :=
  match r with
  | kingdom => 0
  | phylum => 1
  | class => 2
  | order => 3
  | family => 4
  | genus => 5
  | species => 6
  end.

(** The no-break space U+00A0, in UTF-8. *)
Definition no_break_space : string :=
  String (ascii_of_nat 194) (String (ascii_of_nat 160) EmptyString).

Definition no_semicolon (s : string) : Prop :=
  forall c, In c (list_ascii_of_string s) -> c <> semicolon.

(** Is the text white space throughout?  [skip] counts the bytes of a
    white-space character still to come. *)
Fixpoint white_from (skip : nat) (s : string) : bool :=
  match s with
  | EmptyString => match skip with O => true | S _ => false end
  | String c s' =>
      match skip with
      | S k => continuation c && white_from k s'
      | O =>
          match space_length s with
          | S k => white_from k s'
          | O => false
          end
      end
  end.

Definition all_space (s : string) : Prop := white_from 0 s = true.

Definition starts_with_space (s : string) : bool :=
  match space_length s with
  | O => false
  | S _ => true
  end.

(** The text is one character of [\w]. *)
Definition one_word (s : string) : Prop :=
  s <> EmptyString /\ word_length s = String.length s.

Definition starts_with_underscore (s : string) : bool :=
  match s with
  | String c _ => Ascii.eqb c underscore
  | EmptyString => false
  end.

(** No two underscores in a row. *)
Fixpoint no_double_underscore (s : string) : bool :=
  match s with
  | String a s' =>
      negb (Ascii.eqb a underscore && starts_with_underscore s')
      && no_double_underscore s'
  | EmptyString => true
  end.

(** One level of a lineage as classifiers write it, [g__Bacteroides]: the
    letter of the rank (one character, of one byte or more), the name, and
    the white space that separates the level from the semicolon before
    it. *)
Record Level := {
  letter : string;
  name : string;
  gap : string
}.

Definition level_text (l : Level) : string :=
  letter l ++ String underscore (String underscore (name l)).

(** The levels after the first, each behind its semicolon. *)
Fixpoint tail_text (ls : list Level) : string :=
  match ls with
  | [] => EmptyString
  | l :: ls' =>
      String semicolon (gap l ++ level_text l ++ tail_text ls')
  end.

Definition lineage (first : Level) (others : list Level) : string :=
  level_text first ++ tail_text others.

(** What the statements ask of a level: the letter is one character of
    [\w]; the name holds no semicolon and no two underscores in a row, and
    it starts with a whole character that is not white space; the gap is
    white space. *)
Definition well_formed (l : Level) : Prop :=
  one_word (letter l) /\
  no_semicolon (name l) /\
  no_double_underscore (name l) = true /\
  starts_with_space (name l) = false /\
  starts_with_continuation (name l) = false /\
  all_space (gap l).

(** ** Sample data *)

Module Sample.

Definition taxonomy : StrSeries :=
  [("ASV1", "k__Bacteria; p__Firmicutes; c__Bacilli; o__Lactobacillales; f__Lactobacillaceae; g__Lactobacillus; s__casei");
   ("ASV2", "k__Bacteria;p__Bacteroidetes;c__Bacteroidia;o__Bacteroidales;f__Bacteroidaceae;g__Bacteroides;s__fragilis");
   ("ASV3", "k__Bacteria; p__Bacteroidetes; c__Bacteroidia; o__Bacteroidales; f__Bacteroidaceae; g__Bacteroides; s__ovatus");
   ("ASV4", "k__Bacteria; p__Proteobacteria; c__Gammaproteobacteria; o__Enterobacterales; f__Enterobacteriaceae; g__Escherichia; s__coli")].

(** Sample S1 holds three genera, sample S2 holds nothing. *)
Definition table : Table string := {|
  ids := ["ASV1"; "ASV2"; "ASV3"; "ASV4"];
  samples := ["S1"; "S2"];
  data := [[3; 0]; [1; 0]; [3; 0]; [5; 0]]%Q
|}.

(** A table with a negative entry: sample S1 sums to zero. *)
Definition signed_table : Table string := {|
  ids := ["ASV1"; "ASV2"];
  samples := ["S1"];
  data := [[1]; [-1 # 1]]%Q
|}.

Definition manifest_rows : list Series :=
  [[("id", Some "m1"); ("genus", Some "Lactobacillus");
    ("species", Some "casei")];
   [("id", Some "m2"); ("genus", Some "Bacteroides");
    ("species", Some "fragilis")];
   [("id", Some "m3"); ("genus", Some "Bacteroides");
    ("species", Some "ovatus")]].

Definition models : SBMLDirectory := {|
  sbml_manifest := {| columns := ["id"; "genus"; "species"];
                      rows := manifest_rows |};
  sbml_files_path_maker := fun i => (astype_str i ++ ".xml")%string
|}.

Definition levels : list Level :=
  [{| letter := "p"; name := "Firmicutes"; gap := " " |};
   {| letter := "c"; name := "Bacilli"; gap := " " |};
   {| letter := "o"; name := "Lactobacillales"; gap := " " |};
   {| letter := "f"; name := "Lactobacillaceae"; gap := " " |};
   {| letter := "g"; name := "Lactobacillus"; gap := " " |};
   {| letter := "s"; name := "casei"; gap := " " |}].

Definition top : Level :=
  {| letter := "k"; name := "Bacteria"; gap := "" |}.

Definition cutoff : Q := 1 # 10000.

Definition lactobacillus : Series :=
  [("id", Some "m1"); ("genus", Some "Lactobacillus");
   ("species", Some "casei"); ("file", Some "m1.xml")].

Definition bacteroides : Series :=
  [("id", Some "m2"); ("genus", Some "Bacteroides");
   ("species", Some "fragilis"); ("file", Some "m2.xml|m3.xml")].

Definition row (s : string) (k : string) (a : Q) (rel : float) : Long :=
  {| melted := {| sample_id := s; taxon := Some k; abundance := a |};
     relative := rel |}.

(** The long abundance frame of [table] at the genus rank. *)
Definition long_frame : list Long :=
  [row "S1" "Lactobacillus" 3 (Fin (3 # 10));
   row "S2" "Lactobacillus" 0 NaN;
   row "S1" "Bacteroides" 2 (Fin (2 # 10));
   row "S2" "Bacteroides" 0 NaN;
   row "S1" "Escherichia" 5 (Fin (5 # 10));
   row "S2" "Escherichia" 0 NaN].

(** What build_spec returns for it. *)
Definition spec : list Spec :=
  [{| model_file := bacteroides;
      long := row "S1" "Bacteroides" 2 (Fin (2 # 10)) |};
   {| model_file := lactobacillus;
      long := row "S1" "Lactobacillus" 3 (Fin (3 # 10)) |}].

(** What build_spec returns for the signed table. *)
Definition signed_spec : list Spec :=
  [{| model_file := lactobacillus;
      long := row "S1" "Lactobacillus" 1 PInf |}].

Definition community_models : CommunityModelDirectory := {|
  manifest := {| columns := ["sample_id"; "file"];
                 rows := [[("sample_id", Some "S1");
                           ("file", Some "S1.pickle")]] |};
  model_files_path_maker := fun s => ("/models/" ++ s ++ ".pickle")%string;
  manifest_path_maker := "/models/manifest.csv"
|}.

Definition results : MicomResultsDirectory := {|
  growth_rates_path_maker := "/results/growth_rates.csv";
  exchange_fluxes_path_maker := "/results/exchange_fluxes.parquet"
|}.

Definition medium : DataFrame := {|
  columns := ["reaction"; "flux"];
  rows := [[("reaction", Some "EX_glc__D_m"); ("flux", Some "10")]]
|}.

Definition growth : DataFrame := {|
  columns := ["taxon"; "sample_id"; "growth_rate"];
  rows := [[("taxon", Some "Bacteroides"); ("sample_id", Some "S1");
            ("growth_rate", Some "0.25")]]
|}.

Definition exchanges : list Exchange :=
  [{| exchange := [("reaction", Some "EX_glc__D_e")]; flux := Fin (-3 # 1) |};
   {| exchange := [("reaction", Some "EX_ac_e")]; flux := NaN |};
   {| exchange := [("reaction", Some "EX_co2_e")]; flux := Fin 2 |}].

(** A stand-in for micom's grow that returns the same frames whatever it is
    given. *)
Definition simulate : MwGrow :=
  fun _ _ _ _ _ => Ok (growth, exchanges).

End Sample.

(** ** Further observations *)

Fixpoint count_semicolons (s : string) : nat :=
  match s with
  | EmptyString => 0
  | String c s' =>
      (if Ascii.eqb c semicolon then 1 else 0) + count_semicolons s'
  end.

(** No occurrence of [old] starts inside [s] when [old] follows [s]. *)
Fixpoint no_match_inside (old s : string) : bool :=
  match s with
  | EmptyString => true
  | String _ s' => negb (prefix old (s ++ old)) && no_match_inside old s'
  end.

(** The sum of the entries of one sample over the lines of a table. *)
Definition column_total (t : Table cell) (j : nat) : Q :=
  Qsum (map (fun line => nth j line 0) (data t)).

(** The alphabetical order of [groupby]. *)
Definition leb_true (a b : string) : Prop := String.leb a b = true.

(** The sample id of an argument triple of workflow. *)
Definition arg_sample (a : string * list Spec * string) : string :=
  fst (fst a).

Module Case.

(** The sample table, collapsed to the genus. *)
Definition collapsed : Table cell := {|
  ids := [Some "Lactobacillus"; Some "Bacteroides"; Some "Escherichia"];
  samples := ["S1"; "S2"];
  data := [[3; 0]; [2; 0]; [5; 0]]%Q
|}.

(** The long frame of [Sample.table] at the genus rank in float64: the
    relative abundances of S1 are the float64 numbers 0.3, 0.2 and 0.5. *)
Definition float_frame : list Long :=
  [Sample.row "S1" "Lactobacillus" 3
     (Fin (5404319552844595 # 18014398509481984));
   Sample.row "S2" "Lactobacillus" 0 NaN;
   Sample.row "S1" "Bacteroides" 2
     (Fin (3602879701896397 # 18014398509481984));
   Sample.row "S2" "Bacteroides" 0 NaN;
   Sample.row "S1" "Escherichia" 5 (Fin (1 # 2));
   Sample.row "S2" "Escherichia" 0 NaN].





(** A genus that is named sample_id, in the taxonomy and in the model
    database. *)
Definition odd_taxonomy : StrSeries :=
  [("ASV1", "k__Bacteria; p__Firmicutes; c__Bacilli; o__Lactobacillales; f__Lactobacillaceae; g__Lactobacillus; s__casei");
   ("ASV2", "k__Bacteria; p__Firmicutes; c__Bacilli; o__Lactobacillales; f__Lactobacillaceae; g__sample_id; s__odd")].

Definition odd_table : Table string := {|
  ids := ["ASV1"; "ASV2"];
  samples := ["S1"];
  data := [[3]; [1]]%Q
|}.

Definition odd_models : SBMLDirectory := {|
  sbml_manifest := {| columns := ["id"; "genus"];
                      rows := [[("id", Some "m1");
                                ("genus", Some "Lactobacillus")];
                               [("id", Some "m9");
                                ("genus", Some "sample_id")]] |};
  sbml_files_path_maker := fun i => (astype_str i ++ ".xml")%string
|}.

(** What build_spec returns for them: the one row of Lactobacillus, whose
    share is the whole of the sample. *)
Definition odd_spec : list Spec :=
  [{| model_file := [("id", Some "m1"); ("genus", Some "Lactobacillus");
                     ("file", Some "m1.xml")];
      long := Sample.row "S1" "Lactobacillus" 3 (Fin (3 # 3)) |}].

(** The frame taxa of the sample taxonomy. *)
Definition taxa : list (string * Series) :=
  Eval vm_compute in
    match taxa_frame Sample.taxonomy with
    | Ok frame => frame
    | Raise _ => []
    end.

End Case.


(** * Properties *)

(** ** Numbers *)

Lemma gt_exceeds (x : float) (cutoff : Q) :
  gt x cutoff = true <-> exceeds x cutoff.
Proof.
  destruct x as [q | | |]; simpl; try tauto; try (split; [discriminate | tauto]).
  rewrite negb_true_iff. split.
  - intros H. apply Qnot_le_lt. intros Hle.
    apply Qle_bool_iff in Hle. congruence.
  - intros H. destruct (Qle_bool q cutoff) eqn:E; [| reflexivity].
    apply Qle_bool_iff in E. apply Qlt_not_le in H. contradiction.
Qed.

Lemma true_divide_nonzero (x d : Q) :
  ~ d == 0 -> true_divide x d = Fin (x / d).
Proof.
  intros Hd. unfold true_divide.
  destruct (Qeq_bool d 0) eqn:E; [| reflexivity].
  apply Qeq_bool_iff in E. contradiction.
Qed.

Lemma true_divide_zero (x d : Q) :
  d == 0 -> x == 0 -> true_divide x d = NaN.
Proof.
  intros Hd Hx. unfold true_divide.
  apply Qeq_bool_iff in Hd. apply Qeq_bool_iff in Hx.
  rewrite Hd, Hx. reflexivity.
Qed.

Lemma Qsum_scaled {A : Type} (f : A -> Q) (d : Q) (l : list A) :
  ~ d == 0 ->
  Qsum (map (fun a => f a / d) l) == Qsum (map f l) / d.
Proof.
  intros Hd. induction l as [| a l IH]; simpl.
  - field. exact Hd.
  - rewrite IH. field. exact Hd.
Qed.

(** A sum of non-negative numbers is zero only if every one of them is. *)
Lemma Qsum_nonneg (l : list Q) :
  (forall x, In x l -> 0 <= x) -> 0 <= Qsum l.
Proof.
  induction l as [| a l IH]; simpl; intros H.
  - apply Qle_refl.
  - rewrite <- (Qplus_0_l 0). apply Qplus_le_compat.
    + apply H. now left.
    + apply IH. intros x Hx. apply H. now right.
Qed.

Lemma Qsum_zero (l : list Q) :
  (forall x, In x l -> 0 <= x) -> Qsum l == 0 ->
  forall x, In x l -> x == 0.
Proof.
  induction l as [| a l IH]; simpl; intros Hpos Hsum x Hx; [contradiction |].
  assert (Ha : 0 <= a) by (apply Hpos; now left).
  assert (Hl : 0 <= Qsum l)
    by (apply Qsum_nonneg; intros y Hy; apply Hpos; now right).
  assert (Ha0 : a == 0).
  { apply Qle_antisym; [| exact Ha].
    rewrite <- Hsum. rewrite <- (Qplus_0_r a) at 1.
    apply Qplus_le_compat; [apply Qle_refl | exact Hl]. }
  destruct Hx as [<- | Hx]; [exact Ha0 |].
  apply IH; auto.
  rewrite Ha0, Qplus_0_l in Hsum. exact Hsum.
Qed.

Lemma Qsum_member_le (l : list Q) (x : Q) :
  (forall y, In y l -> 0 <= y) -> In x l -> x <= Qsum l.
Proof.
  induction l as [| a l IH]; simpl; intros Hpos Hx; [contradiction |].
  assert (Hl : 0 <= Qsum l)
    by (apply Qsum_nonneg; intros y Hy; apply Hpos; now right).
  destruct Hx as [<- | Hx].
  - rewrite <- (Qplus_0_r a) at 1.
    apply Qplus_le_compat; [apply Qle_refl | exact Hl].
  - rewrite <- (Qplus_0_l x).
    apply Qplus_le_compat; [apply Hpos; now left |].
    apply IH; [intros y Hy; apply Hpos; now right | exact Hx].
Qed.

(** ** Rounding to float64 *)

Lemma round_half_even_near (y : Q) :
  Qabs (inject_Z (round_half_even y) - y) <= 1 # 2.
Proof.
  destruct y as [a b]. unfold round_half_even. cbn [Qnum Qden].
  pose proof (Z.div_mod a (Zpos b) ltac:(lia)) as Hdiv.
  pose proof (Z.mod_pos_bound a (Zpos b) ltac:(lia)) as Hmod.
  set (q := (a / Zpos b)%Z) in *. set (r := (a mod Zpos b)%Z) in *.
  clearbody q r. subst a.
  apply Qabs_Qle_condition.
  assert (Hcases : forall z : Z,
     (- Zpos b <= 2 * (z * Zpos b - (Zpos b * q + r)) <= Zpos b)%Z ->
     - (1 # 2) <= inject_Z z - (Z.pos b * q + r # b) /\
     inject_Z z - (Z.pos b * q + r # b) <= 1 # 2).
  { intros z Hz. unfold Qle, Qminus, Qplus, Qopp, inject_Z. cbn [Qnum Qden].
    rewrite ?Pos2Z.inj_mul. change (Z.neg b) with (- Z.pos b)%Z. lia. }
  destruct (Z.compare_spec (2 * r) (Zpos b)) as [E | E | E];
    try destruct (Z.even q); apply Hcases; lia.
Qed.

Lemma round_half_even_zero (y : Q) : Qnum y = 0%Z -> round_half_even y = 0%Z.
Proof.
  intros H. unfold round_half_even. rewrite H.
  rewrite Z.div_0_l, Z.mod_0_l by discriminate. reflexivity.
Qed.

Lemma two_positive (k : Z) : 0 < 2 ^ k.
Proof. apply Qpower_0_lt. reflexivity. Qed.

Lemma two_nonzero : ~ 2 == 0.
Proof. discriminate. Qed.




(** ... and below the next power of two. *)
Lemma ilog2_above (x : Q) : 0 < x -> x < 2 ^ (ilog2 x + 1).
Proof.
  intros Hx. unfold ilog2.
  set (la := Z.log2 (Qnum x)). set (lb := Z.log2 (Zpos (Qden x))).
  destruct (Qle_bool (2 ^ (la - lb)) x) eqn:E.
  - clear E. destruct x as [a b]. cbn [Qnum Qden] in *.
    assert (Ha : (0 < a)%Z).
    { unfold Qlt in Hx. cbn [Qnum Qden] in Hx. lia. }
    pose proof (Z.log2_spec a Ha) as [_ Hla]. fold la in Hla.
    pose proof (Z.log2_spec (Zpos b) ltac:(lia)) as [Hlb _]. fold lb in Hlb.
    assert (Hla0 : (0 <= la)%Z) by apply Z.log2_nonneg.
    assert (Hlb0 : (0 <= lb)%Z) by apply Z.log2_nonneg.
    replace (la - lb + 1)%Z with (Z.succ la - lb)%Z by lia.
    rewrite Qpower_minus by exact two_nonzero.
    apply Qlt_shift_div_l; [apply two_positive |].
    change 2 with (inject_Z 2).
    rewrite <- !Zpower_Qpower by lia.
    set (A := (2 ^ Z.succ la)%Z) in *. set (B := (2 ^ lb)%Z) in *.
    clearbody A B.
    unfold Qlt, Qmult, inject_Z. cbn [Qnum Qden].
    rewrite Pos2Z.inj_mul. nia.
  - replace (la - lb - 1 + 1)%Z with (la - lb)%Z by lia.
    apply Qnot_le_lt. intros H. apply Qle_bool_iff in H. congruence.
Qed.

(** The nearest float is a multiple of the power of two at its last place,
    and the place is that of a subnormal number at the least. *)
Lemma nearest_is_multiple (x : Q) :
  exists n : Z,
    nearest x == inject_Z n * 2 ^ exponent x /\ (-1074 <= exponent x)%Z.
Proof.
  exists (round_half_even (x / 2 ^ exponent x)). split.
  - unfold nearest. apply Qred_correct.
  - unfold exponent. apply Z.le_max_l.
Qed.

Lemma Qabs_zero (x : Q) : Qabs x == 0 -> x == 0.
Proof.
  destruct x as [a b]. unfold Qabs, Qeq. cbn [Qnum Qden]. lia.
Qed.

(** The multiple has 53 bits: the nearest float is a float64, unless it is
    too large. *)
Lemma nearest_has_53_bits (x : Q) :
  (Z.abs (round_half_even (x / 2 ^ exponent x)) <= 2 ^ 53)%Z.
Proof.
  set (e := exponent x). set (y := x / 2 ^ e).
  destruct (Qeq_dec x 0) as [Hz | Hnz].
  - rewrite round_half_even_zero; [discriminate |].
    assert (Hn : Qnum x = 0%Z).
    { unfold Qeq in Hz. cbn [Qnum Qden] in Hz. lia. }
    unfold y, Qdiv, Qmult. cbn [Qnum]. rewrite Hn. reflexivity.
  - assert (Hx : 0 < Qabs x).
    { destruct (Qle_lt_or_eq _ _ (Qabs_nonneg x)) as [H | H]; [exact H |].
      exfalso. apply Hnz. apply Qabs_zero. now symmetry. }
    assert (Hy : Qabs y < 2 ^ 53).
    { unfold y, Qdiv. rewrite Qabs_Qmult, Qabs_Qinv.
      rewrite (Qabs_pos (2 ^ e)) by (apply Qlt_le_weak, two_positive).
      apply Qlt_shift_div_r; [apply two_positive |].
      eapply Qlt_le_trans; [apply ilog2_above; exact Hx |].
      rewrite <- Qpower_plus by exact two_nonzero.
      apply Qpower_le_compat_l; [| discriminate].
      unfold e, exponent. lia. }
    pose proof (round_half_even_near y) as Hnear.
    set (n := round_half_even y) in *.
    assert (Hn : Qabs (inject_Z n) < 2 ^ 53 + (1 # 2)).
    { setoid_replace (inject_Z n) with ((inject_Z n - y) + y) by ring.
      eapply Qle_lt_trans; [apply Qabs_triangle |].
      rewrite Qplus_comm.
      apply Qplus_lt_le_compat; [exact Hy | exact Hnear]. }
    revert Hn. clearbody n. clear.
    change (2 ^ 53 + (1 # 2)) with (inject_Z (2 ^ 53) + (1 # 2)).
    generalize (2 ^ 53)%Z. intros B.
    unfold Qabs, Qlt, Qplus, inject_Z. cbn [Qnum Qden]. lia.
Qed.

(** ** The float64 of the machine *)

(** [divide64] gives what the division of the machine gives: on quotients
    that are rounded, on exact ones, on a zero divisor, on subnormal
    quotients and ties, and on quotients at the overflow. *)
Example divide64_is_the_machine_division :
  forallb (fun t => Binary64.agree (fst t) (snd t)) Binary64.divisions
  = true.
Proof. vm_compute. reflexivity. Qed.

(** [add64] gives what the addition of the machine gives. *)
Example add64_is_the_machine_addition :
  forallb (fun t => Binary64.agree_sum (fst t) (snd t)) Binary64.additions
  = true.
Proof. vm_compute. reflexivity. Qed.

(** ** The abundance side *)

Lemma melted_with_relative (m : list Melted) :
  map melted (with_relative m) = m.
Proof.
  unfold with_relative. rewrite map_map. simpl. apply map_id.
Qed.

Lemma in_with_relative (m : list Melted) (r : Long) :
  In r (with_relative m) ->
  In (melted r) m /\
  relative r = true_divide (abundance r) (depth m (sample_id r)).
Proof.
  unfold with_relative. rewrite in_map_iff.
  intros [a [<- Ha]]. simpl. split; [exact Ha | reflexivity].
Qed.

Lemma abundance_frame_inv (collapse : Collapse) (t : Table string)
    (taxonomy : StrSeries) (rank : Rank) (long : list Long) :
  abundance_frame collapse t taxonomy rank = Ok long ->
  long = with_relative (map melted long).
Proof.
  unfold abundance_frame.
  destruct (taxa_frame taxonomy) as [taxa | e]; simpl; [| discriminate].
  destruct (collapse _ t) as [c | e]; simpl; [| discriminate].
  intros [= <-]. now rewrite melted_with_relative.
Qed.

Lemma relative_of_sample (m : list Melted) (s : string) :
  ~ depth m s == 0 ->
  map relative (filter (fun r : Long => of_sample s r) (with_relative m))
  = map Fin (map (fun r => abundance r / depth m s) (filter (of_sample s) m)).
Proof.
  intros Hd. unfold with_relative.
  rewrite filter_map_swap. simpl. rewrite !map_map. simpl.
  apply map_ext_in. intros r Hr.
  apply filter_In in Hr. destruct Hr as [_ Hs].
  unfold of_sample in Hs. apply String.eqb_eq in Hs. rewrite Hs.
  now apply true_divide_nonzero.
Qed.

(** ** The merge *)

Lemma in_merge (left : list Series) (right : list Long) (rank : Rank)
    (r : Spec) :
  In r (merge left right rank) <->
  In (model_file r) left /\ In (long r) right /\
  cell_eqb (get (rank_name rank) (model_file r)) (taxon r) = true.
Proof.
  unfold merge. rewrite in_flat_map. split.
  - intros [m [Hm Hr]]. apply in_map_iff in Hr.
    destruct Hr as [a [<- Ha]]. apply filter_In in Ha. simpl. tauto.
  - intros [Hm [Ha Hk]]. exists (model_file r). split; [exact Hm |].
    apply in_map_iff. exists (long r). split.
    + destruct r; reflexivity.
    + apply filter_In. tauto.
Qed.

Lemma merged_frame_inv (collapse : Collapse) (t : Table string)
    (taxonomy : StrSeries) (models : SBMLDirectory) (rank : Rank)
    (merged : list Spec) :
  merged_frame collapse t taxonomy models rank = Ok merged ->
  exists long files,
    abundance_frame collapse t taxonomy rank = Ok long /\
    model_files models rank = Ok files /\
    has_column "relative" (sbml_manifest models) = false /\
    merged = merge files long rank.
Proof.
  unfold merged_frame.
  destruct (abundance_frame collapse t taxonomy rank) as [long | e]; simpl;
    [| discriminate].
  destruct (model_files models rank) as [files | e]; simpl; [| discriminate].
  destruct (has_column "relative" (sbml_manifest models)); [discriminate |].
  intros [= <-]. now exists long, files.
Qed.

Lemma build_spec_inv (collapse : Collapse) (t : Table string)
    (taxonomy : StrSeries) (models : SBMLDirectory) (rank : Rank) (cutoff : Q)
    (spec : list Spec) :
  build_spec collapse t taxonomy models rank cutoff = Ok spec ->
  exists merged,
    merged_frame collapse t taxonomy models rank = Ok merged /\
    spec = filter (fun r : Spec => gt (relative r) cutoff) merged.
Proof.
  unfold build_spec.
  destruct (merged_frame collapse t taxonomy models rank) as [merged | e];
    simpl; [| discriminate].
  intros [= <-]. now exists merged.
Qed.

(** ** The cutoff *)

(** C1: whenever build_spec returns, a row of the merged frame is in the
    returned specification exactly when its relative abundance is greater
    than the cutoff; the comparison is strict, so a row whose relative
    abundance equals the cutoff is left out. *)
Theorem build_spec_applies_cutoff (collapse : Collapse) (t : Table string)
    (taxonomy : StrSeries) (models : SBMLDirectory) (rank : Rank) (cutoff : Q)
    (spec : list Spec) :
  build_spec collapse t taxonomy models rank cutoff = Ok spec ->
  exists merged,
    merged_frame collapse t taxonomy models rank = Ok merged /\
    (forall r, In r spec <-> In r merged /\ exceeds (relative r) cutoff) /\
    (forall r q, In r merged -> relative r = Fin q -> q == cutoff ->
                 ~ In r spec).
Proof.
  intros H. apply build_spec_inv in H. destruct H as [merged [Hm ->]].
  exists merged. split; [exact Hm |]. split.
  - intros r. rewrite filter_In, gt_exceeds. tauto.
  - intros r q _ Hr Hq Hin. apply filter_In in Hin. destruct Hin as [_ Hgt].
    apply gt_exceeds in Hgt. rewrite Hr in Hgt. simpl in Hgt.
    rewrite Hq in Hgt. exact (Qlt_irrefl _ Hgt).
Qed.

Lemma build_spec_applies_cutoff_witness :
  exists merged,
    merged_frame biom_collapse Sample.table Sample.taxonomy Sample.models
      genus = Ok merged /\
    (forall r, In r Sample.spec <->
               In r merged /\ exceeds (relative r) Sample.cutoff) /\
    (forall r q, In r merged -> relative r = Fin q -> q == Sample.cutoff ->
                 ~ In r Sample.spec).
Proof.
  apply (build_spec_applies_cutoff biom_collapse Sample.table Sample.taxonomy
           Sample.models genus Sample.cutoff Sample.spec).
  vm_compute. reflexivity.
Defined.

(** ** Relative abundance *)










(** Before the rounding the shares of such a sample add up to one. *)
Lemma exact_shares_add_up_to_one (m : list Melted) (s : string) :
  ~ depth m s == 0 ->
  Qsum (map (fun r => abundance r / depth m s) (filter (of_sample s) m)) == 1.
Proof.
  intros Hd. rewrite Qsum_scaled by exact Hd. fold (depth m s).
  field. exact Hd.
Qed.

(** ** Samples without any abundance *)

Lemma depth_zero_rows (m : list Melted) (s : string) :
  (forall r, In r m -> sample_id r = s -> 0 <= abundance r) ->
  depth m s == 0 ->
  forall r, In r m -> sample_id r = s -> abundance r == 0.
Proof.
  intros Hpos Hd r Hr Hs. unfold depth in Hd.
  apply (Qsum_zero (map abundance (filter (of_sample s) m))); [| exact Hd |].
  - intros x Hx. apply in_map_iff in Hx. destruct Hx as [a [<- Ha]].
    apply filter_In in Ha. destruct Ha as [Ha Hsa].
    apply Hpos; [exact Ha |]. now apply String.eqb_eq.
  - apply in_map. apply filter_In. split; [exact Hr |].
    unfold of_sample. now apply String.eqb_eq.
Qed.

(** C8, as the code has it: when the abundances of a sample are not negative
    and their sum is zero, the division raises nothing and gives NaN for
    every row of the sample; build_spec returns (provided the taxonomy, the
    collapse and the manifest gave no error of their own and the manifest
    has a model at the rank) and none of the rows it returns belongs to that
    sample. *)
Theorem zero_depth_sample_is_dropped (collapse : Collapse) (t : Table string)
    (taxonomy : StrSeries) (models : SBMLDirectory) (rank : Rank) (cutoff : Q)
    (frame : list Long) (s : string) :
  abundance_frame collapse t taxonomy rank = Ok frame ->
  (forall r : Long, In r frame -> sample_id r = s -> 0 <= abundance r) ->
  depth (map melted frame) s == 0 ->
  (forall r : Long, In r frame -> sample_id r = s -> relative r = NaN) /\
  (forall files,
     model_files models rank = Ok files -> files <> [] ->
     has_column "relative" (sbml_manifest models) = false ->
     exists spec,
       build_spec collapse t taxonomy models rank cutoff = Ok spec) /\
  (forall spec,
     build_spec collapse t taxonomy models rank cutoff = Ok spec ->
     forall r : Spec, In r spec -> sample_id r <> s).
Proof.
  intros Hframe Hpos Hd.
  pose proof (abundance_frame_inv _ _ _ _ _ Hframe) as Hrel.
  assert (Hnan : forall r : Long, In r frame -> sample_id r = s ->
                                  relative r = NaN).
  { intros r Hr Hs. rewrite Hrel in Hr. apply in_with_relative in Hr.
    destruct Hr as [Hin ->]. rewrite Hs.
    apply true_divide_zero; [exact Hd |].
    apply (depth_zero_rows (map melted frame) s); auto.
    intros a Ha Hsa. apply in_map_iff in Ha. destruct Ha as [r' [<- Hr']].
    now apply Hpos. }
  split; [exact Hnan |]. split.
  - intros files Hfiles _ Hcol. unfold build_spec, merged_frame.
    rewrite Hframe, Hfiles. simpl. rewrite Hcol. simpl. eauto.
  - intros spec Hspec r Hr Hs.
    apply build_spec_inv in Hspec. destruct Hspec as [merged [Hm ->]].
    apply merged_frame_inv in Hm.
    destruct Hm as [long' [files [Hlong [_ [_ ->]]]]].
    rewrite Hframe in Hlong. injection Hlong as <-.
    apply filter_In in Hr. destruct Hr as [Hr Hgt].
    apply in_merge in Hr. destruct Hr as [_ [Hr _]].
    rewrite (Hnan _ Hr Hs) in Hgt. discriminate.
Qed.

Lemma zero_depth_sample_is_dropped_witness :
  (forall r : Long, In r Sample.long_frame -> sample_id r = "S2" ->
                    relative r = NaN) /\
  (forall files,
     model_files Sample.models genus = Ok files -> files <> [] ->
     has_column "relative" (sbml_manifest Sample.models) = false ->
     exists spec,
       build_spec biom_collapse Sample.table Sample.taxonomy Sample.models
         genus Sample.cutoff = Ok spec) /\
  (forall spec,
     build_spec biom_collapse Sample.table Sample.taxonomy Sample.models
       genus Sample.cutoff = Ok spec ->
     forall r : Spec, In r spec -> sample_id r <> "S2").
Proof.
  apply (zero_depth_sample_is_dropped biom_collapse Sample.table
           Sample.taxonomy Sample.models genus Sample.cutoff
           Sample.long_frame "S2").
  - vm_compute. reflexivity.
  - intros r Hr _. simpl in Hr.
    repeat (destruct Hr as [<- | Hr]; [vm_compute; discriminate |]).
    contradiction.
  - vm_compute. reflexivity.
Defined.

(** A table with entries of both signs: the sum of sample S1 is zero, the
    division gives an infinity, not NaN, for the positive entry, and that row
    of S1 is returned by build_spec. *)
Lemma zero_depth_row_of_signed_table_is_kept :
  (exists frame,
     abundance_frame biom_collapse Sample.signed_table Sample.taxonomy genus
     = Ok frame /\
     depth (map melted frame) "S1" == 0) /\
  build_spec biom_collapse Sample.signed_table Sample.taxonomy Sample.models
    genus Sample.cutoff = Ok Sample.signed_spec /\
  (exists r : Spec,
     In r Sample.signed_spec /\ sample_id r = "S1" /\ relative r = PInf).
Proof.
  split; [| split].
  - eexists. split; [vm_compute; reflexivity | vm_compute; reflexivity].
  - vm_compute. reflexivity.
  - eexists. split; [left; reflexivity | split; reflexivity].
Qed.

(** ** Rows *)

Lemma get_set_item_same (label : string) (v : cell) (row : Series) :
  get label (set_item label v row) = v.
Proof.
  induction row as [| [l w] row IH]; simpl.
  - now rewrite String.eqb_refl.
  - destruct (String.eqb l label) eqn:E; simpl; now rewrite E.
Qed.

Lemma get_set_item_other (label other : string) (v : cell) (row : Series) :
  other <> label ->
  get other (set_item label v row) = get other row.
Proof.
  intros Hne. induction row as [| [l w] row IH]; simpl.
  - apply String.eqb_neq in Hne. rewrite String.eqb_sym in Hne.
    now rewrite Hne.
  - destruct (String.eqb l label) eqn:E; simpl.
    + apply String.eqb_eq in E. subst l.
      assert (Hf : String.eqb label other = false)
        by (apply String.eqb_neq; congruence).
      now rewrite Hf.
    + now rewrite IH.
Qed.

Lemma rank_name_not_file (rank : Rank) : rank_name rank <> "file".
Proof. destruct rank; discriminate. Qed.

Lemma cell_eqb_eq (a b : cell) : cell_eqb a b = true <-> a = b.
Proof.
  destruct a as [x |], b as [y |]; simpl; try (split; congruence).
  rewrite String.eqb_eq. split; congruence.
Qed.

(** ** Group keys *)

Lemma insert_sorted_perm (k : string) (ks : list string) :
  Permutation (insert_sorted k ks) (k :: ks).
Proof.
  induction ks as [| k' ks IH]; simpl.
  - apply Permutation_refl.
  - destruct (String.leb k k').
    + apply Permutation_refl.
    + eapply perm_trans; [apply perm_skip, IH | apply perm_swap].
Qed.

Lemma sort_perm (ks : list string) : Permutation (sort ks) ks.
Proof.
  induction ks as [| k ks IH]; simpl.
  - apply perm_nil.
  - eapply perm_trans; [apply insert_sorted_perm | now apply perm_skip].
Qed.

Lemma in_unique (x : string) (l : list string) : In x (unique l) <-> In x l.
Proof.
  induction l as [| a l IH]; simpl; [tauto |].
  rewrite filter_In, IH, negb_true_iff, String.eqb_neq.
  destruct (string_dec a x); intuition congruence.
Qed.

Lemma NoDup_unique (l : list string) : NoDup (unique l).
Proof.
  induction l as [| a l IH]; simpl; constructor.
  - rewrite filter_In, negb_true_iff, String.eqb_neq. tauto.
  - now apply NoDup_filter.
Qed.

Lemma in_present (label k : string) (frame : list Series) :
  In k (present label frame) <->
  exists r, In r frame /\ get label r = Some k.
Proof.
  unfold present. rewrite in_flat_map. split; intros [r [Hr Hk]]; exists r;
    (split; [exact Hr |]).
  - destruct (get label r) as [k' |]; simpl in Hk; [| contradiction].
    destruct Hk as [-> | []]. reflexivity.
  - rewrite Hk. now left.
Qed.

Lemma in_group_keys (label k : string) (frame : list Series) :
  In k (group_keys label frame) <-> group label k frame <> [].
Proof.
  unfold group_keys, group. split.
  - intros Hk. apply (Permutation_in _ (sort_perm _)) in Hk.
    apply in_unique, in_present in Hk. destruct Hk as [r [Hr Hg]].
    intros Hnil.
    assert (Hin : In r (filter (fun r0 => cell_eqb (get label r0) (Some k))
                               frame))
      by (apply filter_In; split; [exact Hr | now apply cell_eqb_eq]).
    rewrite Hnil in Hin. contradiction.
  - intros Hne.
    destruct (filter (fun r => cell_eqb (get label r) (Some k)) frame)
      as [| r g] eqn:E; [contradiction |].
    assert (Hin : In r (r :: g)) by now left.
    rewrite <- E in Hin. apply filter_In in Hin. destruct Hin as [Hr Hg].
    apply cell_eqb_eq in Hg.
    apply (Permutation_in _ (Permutation_sym (sort_perm _))).
    apply in_unique, in_present. now exists r.
Qed.

Lemma NoDup_group_keys (label : string) (frame : list Series) :
  NoDup (group_keys label frame).
Proof.
  unfold group_keys.
  apply (Permutation_NoDup (Permutation_sym (sort_perm _))).
  apply NoDup_unique.
Qed.

Lemma hd_group (label k : string) (frame : list Series) :
  group label k frame <> [] ->
  get label (hd [] (group label k frame)) = Some k.
Proof.
  unfold group. intros Hne.
  destruct (filter (fun r => cell_eqb (get label r) (Some k)) frame)
    as [| r g] eqn:E; [contradiction |].
  assert (Hin : In r (r :: g)) by now left.
  rewrite <- E in Hin. apply filter_In in Hin.
  simpl. now apply cell_eqb_eq.
Qed.

(** A frame with one row per key, asked for one key, gives that one row. *)
Lemma one_row_per_key (label : string) (f : string -> Series)
    (ks : list string) (k : string) :
  NoDup ks -> In k ks ->
  (forall k', In k' ks -> get label (f k') = Some k') ->
  filter (fun r => cell_eqb (get label r) (Some k)) (map f ks) = [f k].
Proof.
  intros Hnd. induction Hnd as [| a ks Ha Hnd IH]; intros Hin Hkey;
    [contradiction |].
  simpl. rewrite (Hkey a) by now left.
  assert (Hrest : forall k', In k' ks -> get label (f k') = Some k')
    by (intros k' Hk'; apply Hkey; now right).
  destruct Hin as [-> | Hin].
  - simpl. rewrite String.eqb_refl. f_equal.
    clear IH. induction ks as [| b ks IHks]; [reflexivity |].
    simpl. rewrite (Hrest b) by now left. simpl.
    assert (Hb : String.eqb b k = false).
    { apply String.eqb_neq. intros ->. apply Ha. now left. }
    rewrite Hb. apply IHks.
    + intros H. apply Ha. now right.
    + now inversion Hnd.
    + intros k' Hk'. apply Hkey. destruct Hk'; [now left | right; now right].
    + intros k' Hk'. apply Hrest. now right.
  - assert (Hak : String.eqb a k = false).
    { apply String.eqb_neq. intros ->. contradiction. }
    simpl. rewrite Hak. now apply IH.
Qed.

(** ** The model database side *)

Lemma group_with_file (label k : string) (g : Series -> cell)
    (frame : list Series) :
  label <> "file" ->
  group label k (map (fun r => set_item "file" (g r) r) frame)
  = map (fun r => set_item "file" (g r) r) (group label k frame).
Proof.
  intros Hne. unfold group. rewrite filter_map_swap. f_equal.
  apply filter_ext. intros r. now rewrite get_set_item_other.
Qed.

Lemma model_files_inv (models : SBMLDirectory) (rank : Rank)
    (files : list Series) :
  model_files models rank = Ok files ->
  files
  = groupby_apply (rank_name rank) reduce_group
      (map (fun r => set_item "file"
                       (Some (sbml_files_path_maker models (get "id" r))) r)
           (rows (sbml_manifest models))).
Proof.
  unfold model_files.
  destruct (has_column "id" (sbml_manifest models)); [| discriminate].
  destruct (has_column (rank_name rank) (sbml_manifest models));
    [| discriminate].
  now intros [= <-].
Qed.

(** C10: the entries of the model database that share a value at the chosen
    rank become one row of the model-file frame; that row has the fields of
    the first entry of the group, except for the field file, which is the
    file paths of the entries of the group, in their order, joined by a
    vertical bar. *)
Theorem model_files_joins_group (models : SBMLDirectory) (rank : Rank)
    (files : list Series) (k : string) (first : Series)
    (others : list Series) :
  model_files models rank = Ok files ->
  group (rank_name rank) k (rows (sbml_manifest models)) = first :: others ->
  exists row,
    filter (fun r => cell_eqb (get (rank_name rank) r) (Some k)) files
    = [row] /\
    (forall label, label <> "file" -> get label row = get label first) /\
    get "file" row
    = Some (join "|"
              (map (fun r => sbml_files_path_maker models (get "id" r))
                   (first :: others))).
Proof.
  intros Hfiles Hgroup. apply model_files_inv in Hfiles.
  set (pm := fun r : Series =>
               Some (sbml_files_path_maker models (get "id" r))) in *.
  set (label := rank_name rank) in *.
  set (frame := map (fun r => set_item "file" (pm r) r)
                    (rows (sbml_manifest models))) in *.
  assert (Hlabel : label <> "file") by apply rank_name_not_file.
  assert (Hg : forall k', group label k' frame
                 = map (fun r => set_item "file" (pm r) r)
                       (group label k' (rows (sbml_manifest models))))
    by (intros k'; now apply group_with_file).
  exists (reduce_group (group label k frame)).
  split; [| split].
  - rewrite Hfiles. unfold groupby_apply.
    apply (one_row_per_key label
             (fun k' => reduce_group (group label k' frame))).
    + apply NoDup_group_keys.
    + apply in_group_keys. rewrite Hg, Hgroup. discriminate.
    + intros k' Hk'. apply in_group_keys in Hk'.
      unfold reduce_group. rewrite get_set_item_other by exact Hlabel.
      now apply hd_group.
  - intros other Hother. unfold reduce_group.
    rewrite get_set_item_other by exact Hother.
    rewrite Hg, Hgroup. simpl. now apply get_set_item_other.
  - unfold reduce_group. rewrite get_set_item_same.
    rewrite Hg, Hgroup, map_map. do 2 f_equal.
    apply map_ext. intros r. now rewrite get_set_item_same.
Qed.

Lemma model_files_joins_group_witness :
  exists row,
    filter (fun r => cell_eqb (get (rank_name genus) r) (Some "Bacteroides"))
           [Sample.bacteroides; Sample.lactobacillus]
    = [row] /\
    (forall label, label <> "file" ->
       get label row
       = get label [("id", Some "m2"); ("genus", Some "Bacteroides");
                    ("species", Some "fragilis")]) /\
    get "file" row
    = Some (join "|"
              (map (fun r => sbml_files_path_maker Sample.models (get "id" r))
                   [[("id", Some "m2"); ("genus", Some "Bacteroides");
                     ("species", Some "fragilis")];
                    [("id", Some "m3"); ("genus", Some "Bacteroides");
                     ("species", Some "ovatus")]])).
Proof.
  apply (model_files_joins_group Sample.models genus
           [Sample.bacteroides; Sample.lactobacillus] "Bacteroides").
  - vm_compute. reflexivity.
  - vm_compute. reflexivity.
Defined.

(** ** The two regular expressions *)

(** *** Bytes and characters *)

Lemma continuation_not_semicolon (c : ascii) :
  continuation c = true -> Ascii.eqb c semicolon = false.
Proof.
  intros H. destruct (Ascii.eqb c semicolon) eqn:E; [| reflexivity].
  apply Ascii.eqb_eq in E. subst c. discriminate.
Qed.

Lemma continuations_length (k : nat) (s : string) :
  continuations k s = true -> (k <= String.length s)%nat.
Proof.
  revert s. induction k as [| k IH]; intros s H; [simpl; lia |].
  destruct s as [| c s]; [discriminate |].
  simpl in H. apply andb_true_iff in H. destruct H as [_ H].
  apply IH in H. simpl. lia.
Qed.

Lemma continuations_app (k : nat) (s rest : string) :
  starts_with_continuation rest = false ->
  continuations k (s ++ rest) = continuations k s.
Proof.
  intros Hrest. revert s. induction k as [| k IH]; intros s; [reflexivity |].
  destruct s as [| c s]; simpl.
  - destruct rest as [| r rest]; [reflexivity |].
    simpl in Hrest. simpl. now rewrite Hrest.
  - now rewrite IH.
Qed.

Lemma bits_app (i k : nat) (s rest : string) :
  continuations k s = true -> (i < k)%nat ->
  bits i (s ++ rest) = bits i s.
Proof.
  revert i s. induction k as [| k IH]; intros i s H Hi; [lia |].
  destruct s as [| c s]; [discriminate |].
  simpl in H. apply andb_true_iff in H. destruct H as [_ H].
  destruct i as [| i]; [reflexivity |].
  unfold bits in *. simpl. apply IH; [exact H | lia].
Qed.

Lemma head_char_app (s rest : string) :
  s <> EmptyString -> starts_with_continuation rest = false ->
  head_char (s ++ rest) = head_char s.
Proof.
  intros Hs Hrest. destruct s as [| c s]; [contradiction |].
  change (String c s ++ rest)%string with (String c (s ++ rest)).
  unfold head_char.
  rewrite !(continuations_app _ s rest Hrest).
  destruct (code c <? 128)%N; [reflexivity |].
  destruct (code c <? 192)%N; [reflexivity |].
  destruct (code c <? 224)%N.
  { destruct (continuations 1 s) eqn:E; [| reflexivity].
    now rewrite (bits_app 0 1 s rest E) by lia. }
  destruct (code c <? 240)%N.
  { destruct (continuations 2 s) eqn:E; [| reflexivity].
    now rewrite (bits_app 0 2 s rest E), (bits_app 1 2 s rest E) by lia. }
  destruct (code c <? 248)%N; [| reflexivity].
  destruct (continuations 3 s) eqn:E; [| reflexivity].
  now rewrite (bits_app 0 3 s rest E), (bits_app 1 3 s rest E),
    (bits_app 2 3 s rest E) by lia.
Qed.

(** What the head of a text looks like where a character starts. *)
Lemma head_char_inv (c : ascii) (s : string) (cp : N) (k : nat) :
  head_char (String c s) = Some (cp, k) ->
  exists k',
    k = S k' /\ continuations k' s = true /\
    (((code c <? 128)%N = true /\ cp = code c) \/ (192 <= code c)%N).
Proof.
  unfold head_char.
  destruct (code c <? 128)%N eqn:E1.
  { intros [= <- <-]. exists 0%nat. auto. }
  destruct (code c <? 192)%N eqn:E2; [discriminate |].
  apply N.ltb_ge in E2.
  destruct (code c <? 224)%N.
  { destruct (continuations 1 s) eqn:E; [| discriminate].
    intros [= <- <-]. exists 1%nat. auto. }
  destruct (code c <? 240)%N.
  { destruct (continuations 2 s) eqn:E; [| discriminate].
    intros [= <- <-]. exists 2%nat. auto. }
  destruct (code c <? 248)%N; [| discriminate].
  destruct (continuations 3 s) eqn:E; [| discriminate].
  intros [= <- <-]. exists 3%nat. auto.
Qed.

Lemma head_char_continuation (c : ascii) (s : string) :
  continuation c = true -> head_char (String c s) = None.
Proof.
  unfold continuation, head_char. intros H.
  apply andb_true_iff in H. destruct H as [H1 H2].
  apply N.leb_le in H1, H2.
  destruct (code c <? 128)%N eqn:E1; [apply N.ltb_lt in E1; lia |].
  destruct (code c <? 192)%N eqn:E2; [reflexivity |].
  apply N.ltb_ge in E2. lia.
Qed.

Lemma head_char_start (c : ascii) (s : string) (cp : N) (k : nat) :
  head_char (String c s) = Some (cp, k) -> continuation c = false.
Proof.
  intros H. destruct (continuation c) eqn:E; [| reflexivity].
  rewrite (head_char_continuation c s E) in H. discriminate.
Qed.

Lemma head_char_length (s : string) (cp : N) (k : nat) :
  head_char s = Some (cp, k) -> (1 <= k <= String.length s)%nat.
Proof.
  destruct s as [| c s]; [discriminate |]. intros H.
  apply head_char_inv in H. destruct H as [k' [-> [H _]]].
  apply continuations_length in H. simpl. lia.
Qed.

Lemma drop_continuations_semicolons (k : nat) (s : string) :
  continuations k s = true ->
  count_semicolons (drop k s) = count_semicolons s.
Proof.
  revert s. induction k as [| k IH]; intros s H; [now destruct s |].
  destruct s as [| c s]; [discriminate |].
  simpl in H. apply andb_true_iff in H. destruct H as [Hc H].
  simpl. rewrite (continuation_not_semicolon c Hc). now apply IH.
Qed.

(** A character other than the semicolon holds no semicolon. *)
Lemma drop_char_semicolons (s : string) (cp : N) (k : nat) :
  head_char s = Some (cp, k) -> cp <> 59%N ->
  count_semicolons (drop k s) = count_semicolons s.
Proof.
  destruct s as [| c s]; [discriminate |]. intros H Hcp.
  apply head_char_inv in H. destruct H as [k' [-> [Hk Hc]]].
  simpl. rewrite (drop_continuations_semicolons k' s Hk).
  destruct (Ascii.eqb c semicolon) eqn:E; [| reflexivity].
  apply Ascii.eqb_eq in E. subst c. exfalso.
  destruct Hc as [[_ ->] | Hc]; [now apply Hcp | vm_compute in Hc; auto].
Qed.

(** *** The classes *)

Lemma below_all (P : N -> bool) (n : N) :
  forallb P (map N.of_nat (seq 0 (N.to_nat n))) = true ->
  forall cp, (cp < n)%N -> P cp = true.
Proof.
  intros H cp Hcp. rewrite forallb_forall in H. apply H.
  apply in_map_iff. exists (N.to_nat cp). split; [apply N2Nat.id |].
  apply in_seq. lia.
Qed.

Lemma is_space_below (cp : N) : is_space cp = true -> (cp < 12289)%N.
Proof.
  unfold is_space, in_ranges. intros H. apply existsb_exists in H.
  destruct H as [[lo hi] [Hin H]]. simpl in H.
  apply andb_true_iff in H. destruct H as [_ H]. apply N.leb_le in H.
  simpl in Hin.
  repeat (destruct Hin as [[= <- <-] | Hin]; [lia |]). contradiction.
Qed.

Lemma space_not_word (cp : N) : is_space cp = true -> is_word cp = false.
Proof.
  intros H. pose proof (is_space_below cp H) as Hcp.
  assert (Hall : implb (is_space cp) (negb (is_word cp)) = true).
  { apply (below_all (fun cp => implb (is_space cp) (negb (is_word cp)))
             12289%N); [vm_compute; reflexivity | exact Hcp]. }
  rewrite H in Hall. simpl in Hall. now apply negb_true_iff.
Qed.

Lemma space_not_semicolon (cp : N) : is_space cp = true -> cp <> 59%N.
Proof. intros H ->. vm_compute in H. discriminate. Qed.

Lemma word_not_semicolon (cp : N) : is_word cp = true -> cp <> 59%N.
Proof. intros H ->. vm_compute in H. discriminate. Qed.

Lemma space_length_inv (s : string) (k : nat) :
  space_length s = S k ->
  exists cp, head_char s = Some (cp, S k) /\ is_space cp = true.
Proof.
  unfold space_length. destruct (head_char s) as [[cp j] |]; [| discriminate].
  destruct (is_space cp) eqn:E; [| discriminate].
  intros ->. eauto.
Qed.

Lemma word_length_inv (s : string) (k : nat) :
  word_length s = S k ->
  exists cp, head_char s = Some (cp, S k) /\ is_word cp = true.
Proof.
  unfold word_length. destruct (head_char s) as [[cp j] |]; [| discriminate].
  destruct (is_word cp) eqn:E; [| discriminate].
  intros ->. eauto.
Qed.

Lemma space_length_app (s rest : string) :
  s <> EmptyString -> starts_with_continuation rest = false ->
  space_length (s ++ rest) = space_length s.
Proof.
  intros Hs Hrest. unfold space_length. now rewrite head_char_app.
Qed.

Lemma word_length_app (s rest : string) :
  s <> EmptyString -> starts_with_continuation rest = false ->
  word_length (s ++ rest) = word_length s.
Proof.
  intros Hs Hrest. unfold word_length. now rewrite head_char_app.
Qed.

Lemma semicolon_is_plain (s : string) :
  head_char (String semicolon s) = Some (59%N, 1%nat).
Proof. reflexivity. Qed.

Lemma match_length_semicolon (s : string) :
  match_length (String semicolon s) = 0%nat.
Proof.
  unfold match_length, word_length. rewrite semicolon_is_plain.
  assert (H : is_word 59 = false) by (vm_compute; reflexivity).
  now rewrite H.
Qed.

Lemma space_length_semicolon (s : string) :
  space_length (String semicolon s) = 0%nat.
Proof.
  unfold space_length. rewrite semicolon_is_plain.
  assert (H : is_space 59 = false) by (vm_compute; reflexivity).
  now rewrite H.
Qed.

(** *** Texts *)

Lemma append_empty (s : string) : (s ++ "")%string = s.
Proof. induction s as [| c s IH]; simpl; [reflexivity | now rewrite IH]. Qed.

Lemma drop_zero (s : string) : drop 0 s = s.
Proof. now destruct s. Qed.

Lemma drop_add (j k : nat) (s : string) : drop (j + k) s = drop k (drop j s).
Proof.
  revert s. induction j as [| j IH]; intros s; [now rewrite drop_zero |].
  destruct s as [| c s]; [now destruct k |]. simpl. apply IH.
Qed.

Lemma drop_app (k : nat) (s rest : string) :
  (k <= String.length s)%nat -> drop k (s ++ rest) = (drop k s ++ rest)%string.
Proof.
  revert s. induction k as [| k IH]; intros s H; [now rewrite !drop_zero |].
  destruct s as [| c s]; [simpl in H; lia |].
  simpl. apply IH. simpl in H. lia.
Qed.

Lemma drop_length (s rest : string) : drop (String.length s) (s ++ rest) = rest.
Proof.
  induction s as [| c s IH]; [apply drop_zero | exact IH].
Qed.

Lemma no_double_underscore_drop (k : nat) (s : string) :
  no_double_underscore s = true -> no_double_underscore (drop k s) = true.
Proof.
  revert s. induction k as [| k IH]; intros s H; [now rewrite drop_zero |].
  destruct s as [| c s]; [reflexivity |].
  simpl in H. apply andb_true_iff in H. destruct H as [_ H].
  simpl. now apply IH.
Qed.

Lemma prefix_underscores (s : string) :
  prefix "__" s = true ->
  exists rest, s = String underscore (String underscore rest).
Proof.
  destruct s as [| a [| b rest]]; cbn [prefix]; try discriminate.
  - destruct (ascii_dec "_" a); discriminate.
  - destruct (ascii_dec "_" a) as [<- |]; [| discriminate].
    destruct (ascii_dec "_" b) as [<- |]; [| discriminate].
    intros _. now exists rest.
Qed.

(** No match of the two underscores where the text has none in a row and
    the text behind it starts otherwise. *)
Lemma no_underscores_ahead (s rest : string) :
  no_double_underscore s = true -> starts_with_underscore rest = false ->
  prefix "__" (s ++ rest) = false.
Proof.
  intros Hs Hrest. destruct (prefix "__" (s ++ rest)) eqn:E; [| reflexivity].
  apply prefix_underscores in E. destruct E as [t E]. exfalso.
  destruct s as [| a [| b s]]; simpl in *.
  - subst rest. discriminate.
  - injection E as -> E. subst rest. discriminate.
  - injection E as -> -> _. discriminate.
Qed.

(** *** Deleting the prefixes *)

Lemma replace_prefix_skip (k : nat) (s : string) :
  replace_prefix k s = replace_prefix 0 (drop k s).
Proof.
  revert k. induction s as [| c s IH]; intros k; [now destruct k |].
  destruct k as [| k]; [reflexivity | apply IH].
Qed.

Lemma replace_prefix_keep (c : ascii) (s : string) :
  match_length (String c s) = 0%nat ->
  replace_prefix 0 (String c s) = String c (replace_prefix 0 s).
Proof. intros H. cbn [replace_prefix]. now rewrite H. Qed.

Lemma match_length_name (c : ascii) (n rest : string) :
  no_double_underscore (String c n) = true ->
  starts_with_underscore rest = false ->
  starts_with_continuation rest = false ->
  match_length (String c (n ++ rest)) = 0%nat.
Proof.
  intros Hn Hu Hc. unfold match_length.
  change (String c (n ++ rest)) with (String c n ++ rest)%string.
  rewrite word_length_app by (discriminate || exact Hc).
  destruct (word_length (String c n)) as [| k] eqn:E; [reflexivity |].
  apply word_length_inv in E. destruct E as [cp [E _]].
  apply head_char_length in E.
  rewrite drop_app by lia.
  rewrite no_underscores_ahead;
    [reflexivity | now apply no_double_underscore_drop | exact Hu].
Qed.

(** A name without two underscores in a row holds no match, and none
    reaches over its end when the text behind it starts otherwise than with
    an underscore. *)
Lemma replace_prefix_name (n rest : string) :
  no_double_underscore n = true ->
  starts_with_underscore rest = false ->
  starts_with_continuation rest = false ->
  replace_prefix 0 (n ++ rest) = (n ++ replace_prefix 0 rest)%string.
Proof.
  induction n as [| c n IH]; intros Hn Hu Hc; [reflexivity |].
  change (String c n ++ rest)%string with (String c (n ++ rest)).
  rewrite replace_prefix_keep by now apply match_length_name.
  simpl. f_equal. apply IH; auto.
  simpl in Hn. apply andb_true_iff in Hn. tauto.
Qed.

Lemma prefix_two (s : string) :
  prefix "__" (String underscore (String underscore s)) = true.
Proof.
  unfold underscore. cbn [prefix].
  destruct (ascii_dec "_" "_") as [_ | H]; [now destruct s | now elim H].
Qed.

Lemma append_assoc (a b c : string) :
  ((a ++ b) ++ c)%string = (a ++ (b ++ c))%string.
Proof. induction a as [| x a IH]; simpl; [reflexivity | now rewrite IH]. Qed.

Lemma replace_prefix_level (l : Level) (rest : string) :
  one_word (letter l) ->
  replace_prefix 0 (level_text l ++ rest)
  = replace_prefix 0 (name l ++ rest).
Proof.
  intros [Hne Hw]. unfold level_text. rewrite append_assoc.
  destruct (letter l) as [| c w] eqn:El; [contradiction |].
  set (tail := (String underscore (String underscore (name l)) ++ rest)%string).
  assert (Hm : match_length (String c w ++ tail)
               = (S (String.length w) + 2)%nat).
  { unfold match_length.
    rewrite word_length_app by (discriminate || reflexivity).
    rewrite Hw. cbn [String.length].
    change (String c w ++ tail)%string with (String c (w ++ tail)).
    cbn [drop]. rewrite drop_length. unfold tail. cbn [append].
    now rewrite prefix_two. }
  change (String c w ++ tail)%string with (String c (w ++ tail)) in *.
  cbn [replace_prefix]. rewrite Hm. cbn [Nat.add].
  rewrite replace_prefix_skip, drop_add, drop_length.
  unfold tail. reflexivity.
Qed.

Lemma replace_prefix_white (g rest : string) (skip : nat) :
  white_from skip g = true -> starts_with_continuation rest = false ->
  replace_prefix 0 (g ++ rest) = (g ++ replace_prefix 0 rest)%string.
Proof.
  intros Hg Hrest. revert skip Hg.
  induction g as [| c g IH]; intros skip Hg; [reflexivity |].
  change (String c g ++ rest)%string with (String c (g ++ rest)).
  assert (Hm : match_length (String c (g ++ rest)) = 0%nat).
  { unfold match_length, word_length.
    change (String c (g ++ rest)) with (String c g ++ rest)%string.
    rewrite head_char_app by (discriminate || exact Hrest).
    destruct skip as [| k]; simpl in Hg.
    - destruct (space_length (String c g)) as [| k] eqn:E; [discriminate |].
      apply space_length_inv in E. destruct E as [cp [-> Hsp]].
      now rewrite (space_not_word cp Hsp).
    - apply andb_true_iff in Hg. destruct Hg as [Hc _].
      now rewrite (head_char_continuation c g Hc). }
  rewrite replace_prefix_keep by exact Hm. simpl. f_equal.
  destruct skip as [| k]; simpl in Hg.
  - destruct (space_length (String c g)) as [| k]; [discriminate |].
    now apply (IH k).
  - apply andb_true_iff in Hg. now apply (IH k).
Qed.

Lemma tail_text_start (ls : list Level) :
  starts_with_underscore (tail_text ls) = false /\
  starts_with_continuation (tail_text ls) = false.
Proof. destruct ls; split; reflexivity. Qed.

Lemma level_text_start (l : Level) (rest : string) :
  one_word (letter l) ->
  starts_with_continuation (level_text l ++ rest) = false.
Proof.
  intros [Hne Hw]. unfold level_text.
  destruct (letter l) as [| c w]; [contradiction |]. simpl.
  destruct (word_length (String c w)) as [| k] eqn:E;
    [simpl in Hw; discriminate |].
  apply word_length_inv in E. destruct E as [cp [E _]].
  exact (head_char_start _ _ _ _ E).
Qed.

Lemma replace_prefix_tail (l : Level) (ls : list Level) :
  well_formed l ->
  replace_prefix 0 (tail_text (l :: ls))
  = String semicolon
      (gap l ++ name l ++ replace_prefix 0 (tail_text ls)).
Proof.
  intros [Hw [_ [Hn [_ [_ Hg]]]]]. cbn [tail_text].
  rewrite replace_prefix_keep by apply match_length_semicolon. f_equal.
  rewrite (replace_prefix_white _ _ 0%nat Hg)
    by (rewrite <- (level_text_start l (tail_text ls) Hw); f_equal;
        now rewrite append_assoc).
  f_equal. rewrite replace_prefix_level by exact Hw.
  apply replace_prefix_name; [exact Hn | apply tail_text_start ..].
Qed.

Lemma replace_prefix_tail_head (ls : list Level) :
  Forall well_formed ls ->
  starts_with_continuation (replace_prefix 0 (tail_text ls)) = false /\
  space_length (replace_prefix 0 (tail_text ls)) = 0%nat.
Proof.
  intros H. destruct H as [| l ls Hl Hls]; [split; reflexivity |].
  rewrite replace_prefix_tail by exact Hl.
  split; [reflexivity | apply space_length_semicolon].
Qed.

(** *** Splitting *)

(** A text without a semicolon stays in the current field. *)
Lemma split_fields_no_semicolon (a rest : string) :
  no_semicolon a ->
  split_fields 0 false (a ++ rest)
  = ((a ++ fst (split_fields 0 false rest))%string,
     snd (split_fields 0 false rest)).
Proof.
  induction a as [| c a IH]; intros Ha.
  - simpl. now destruct (split_fields 0 false rest).
  - change (String c a ++ rest)%string with (String c (a ++ rest)).
    assert (Hc : Ascii.eqb c semicolon = false).
    { apply Ascii.eqb_neq. apply Ha. now left. }
    cbn [split_fields]. rewrite Hc. rewrite IH.
    + reflexivity.
    + intros c' Hc'. apply Ha. now right.
Qed.

(** The white space behind a semicolon is skipped. *)
Lemma split_fields_gap (g rest : string) (skip : nat) :
  white_from skip g = true -> starts_with_continuation rest = false ->
  split_fields skip true (g ++ rest) = split_fields 0 true rest.
Proof.
  intros Hg Hrest. revert skip Hg.
  induction g as [| c g IH]; intros skip Hg.
  - destruct skip; [reflexivity | discriminate].
  - change (String c g ++ rest)%string with (String c (g ++ rest)).
    destruct skip as [| k]; simpl in Hg.
    + cbn [split_fields].
      change (String c (g ++ rest)) with (String c g ++ rest)%string.
      rewrite space_length_app by (discriminate || exact Hrest).
      destruct (space_length (String c g)) as [| k]; [discriminate |].
      now apply IH.
    + apply andb_true_iff in Hg. cbn [split_fields]. now apply IH.
Qed.

Lemma split_fields_after_gap (s : string) :
  space_length s = 0%nat ->
  split_fields 0 true s = split_fields 0 false s.
Proof.
  destruct s as [| c s]; [reflexivity |].
  intros H. cbn [split_fields]. now rewrite H.
Qed.

Lemma space_length_name (n rest : string) :
  space_length n = 0%nat -> starts_with_continuation rest = false ->
  space_length rest = 0%nat ->
  space_length (n ++ rest) = 0%nat.
Proof.
  intros Hn Hc Hrest. destruct n as [| c n]; [exact Hrest |].
  now rewrite space_length_app by (discriminate || exact Hc).
Qed.

Lemma starts_with_space_false (s : string) :
  starts_with_space s = false -> space_length s = 0%nat.
Proof.
  unfold starts_with_space. now destruct (space_length s).
Qed.

Lemma split_fields_tail (ls : list Level) :
  Forall well_formed ls ->
  forall a, no_semicolon a ->
  split_fields 0 false (a ++ replace_prefix 0 (tail_text ls))
  = (a, map name ls).
Proof.
  induction 1 as [| l ls Hl Hls IH]; intros a Ha.
  - rewrite split_fields_no_semicolon by exact Ha. simpl.
    now rewrite append_empty.
  - rewrite replace_prefix_tail by exact Hl.
    rewrite split_fields_no_semicolon by exact Ha.
    destruct Hl as [Hw [Hn [Hu [Hs [Hv Hg]]]]].
    destruct (replace_prefix_tail_head ls Hls) as [Hc Hsp].
    assert (Hsplit : split_fields 0 false
                       (String semicolon
                          (gap l ++ name l ++ replace_prefix 0 (tail_text ls)))
                     = (EmptyString, name l :: map name ls)).
    { cbn [split_fields]. rewrite Ascii.eqb_refl.
      rewrite (split_fields_gap _ _ 0%nat Hg).
      - rewrite split_fields_after_gap.
        + now rewrite IH.
        + apply space_length_name; auto using starts_with_space_false.
      - destruct (name l) as [| c n] eqn:En; [exact Hc | exact Hv]. }
    rewrite Hsplit. simpl. now rewrite append_empty.
Qed.

(** Stripping the rank prefixes and splitting at the semicolons gives the
    names of the levels. *)
Lemma split_replace_lineage (first : Level) (others : list Level) :
  Forall well_formed (first :: others) ->
  str_split (str_replace (lineage first others)) = map name (first :: others).
Proof.
  intros H. inversion H as [| l ls Hfirst Hothers]; subst.
  unfold str_split, str_replace, lineage.
  destruct Hfirst as [Hw [Hn [Hu _]]].
  rewrite replace_prefix_level by exact Hw.
  rewrite replace_prefix_name; [| exact Hu | apply tail_text_start ..].
  now rewrite split_fields_tail.
Qed.

(** ** The frame taxa *)

Lemma taxa_row (i : string) (fields : list string) :
  (List.length fields <= 7)%nat ->
  let row := combine (map rank_name RANKS) (expand 7 fields)
               ++ [("taxid", Some i)] in
  map fst row = map rank_name RANKS ++ ["taxid"] /\
  forall level,
    get (rank_name level) row = nth_error fields (rank_index level).
Proof.
  intros Hlen.
  destruct fields as [| f1 [| f2 [| f3 [| f4 [| f5 [| f6 [| f7 [| f8 fs]]]]]]]];
    simpl in Hlen; try lia;
    (split; [reflexivity | intros level; destruct level; reflexivity]).
Qed.

Lemma taxa_frame_inv (taxonomy : StrSeries) (taxa : list (string * Series))
    (i : string) (row : Series) :
  taxa_frame taxonomy = Ok taxa ->
  In (i, row) taxa <->
  exists text,
    In (i, text) taxonomy /\
    (List.length (str_split (str_replace text)) <= 7)%nat /\
    row = combine (map rank_name RANKS)
            (expand 7 (str_split (str_replace text)))
          ++ [("taxid", Some i)].
Proof.
  unfold taxa_frame.
  set (parts := map (fun e => (fst e, str_split (str_replace (snd e))))
                    taxonomy).
  destruct (max_width parts =? List.length RANKS)%nat eqn:E; [| discriminate].
  apply Nat.eqb_eq in E. intros [= <-].
  assert (Hw : Forall (fun k => (k <= 7)%nat)
                 (map (fun p => List.length (snd p)) parts)).
  { apply list_max_le. unfold max_width in E. rewrite E. apply Nat.le_refl. }
  rewrite Forall_forall in Hw. rewrite E. simpl List.length.
  split.
  - intros Hin. apply in_map_iff in Hin. destruct Hin as [p [Hp Hin]].
    pose proof (Hw _ (in_map _ _ _ Hin)) as Hlen.
    unfold parts in Hin. apply in_map_iff in Hin.
    destruct Hin as [[j text] [<- Hin]]. simpl in *.
    injection Hp as <- <-. exists text. auto.
  - intros [text [Hin [_ ->]]].
    apply in_map_iff. exists (i, str_split (str_replace text)).
    split; [reflexivity |].
    unfold parts. apply in_map_iff. now exists (i, text).
Qed.

(** ** The join *)

(** C7: when build_spec returns, the frame taxa has a row per taxonomy entry
    with the seven rank columns (and taxid), filled with the fields of the
    entry after the rank prefixes are deleted and the text is split at each
    semicolon and the white space behind it; for an entry written as
    [k__name; p__name; ...] the fields are the names.  The returned rows are
    the pairs of a model-file row and an abundance row that agree on the
    chosen rank (and pass the cutoff), so an abundance row whose taxon has no
    model file is in no returned row. *)
Theorem build_spec_joins_on_rank (collapse : Collapse) (t : Table string)
    (taxonomy : StrSeries) (models : SBMLDirectory) (rank : Rank) (cutoff : Q)
    (spec : list Spec) :
  build_spec collapse t taxonomy models rank cutoff = Ok spec ->
  exists taxa frame files,
    taxa_frame taxonomy = Ok taxa /\
    (forall i row, In (i, row) taxa ->
       map fst row = map rank_name RANKS ++ ["taxid"] /\
       exists text,
         In (i, text) taxonomy /\
         forall level,
           get (rank_name level) row
           = nth_error (str_split (str_replace text)) (rank_index level)) /\
    (forall i first others,
       In (i, lineage first others) taxonomy ->
       Forall well_formed (first :: others) ->
       exists row,
         In (i, row) taxa /\
         forall level,
           get (rank_name level) row
           = nth_error (map name (first :: others)) (rank_index level)) /\
    abundance_frame collapse t taxonomy rank = Ok frame /\
    model_files models rank = Ok files /\
    (forall r : Spec,
       In r spec <->
       In (model_file r) files /\ In (long r) frame /\
       get (rank_name rank) (model_file r) = taxon r /\
       exceeds (relative r) cutoff) /\
    (forall a : Long,
       In a frame ->
       (forall m, In m files -> get (rank_name rank) m <> taxon a) ->
       forall r : Spec, In r spec -> long r <> a).
Proof.
  intros Hspec. apply build_spec_inv in Hspec.
  destruct Hspec as [merged [Hm ->]].
  apply merged_frame_inv in Hm.
  destruct Hm as [frame [files [Hframe [Hfiles [_ ->]]]]].
  assert (Htaxa : exists taxa, taxa_frame taxonomy = Ok taxa).
  { unfold abundance_frame in Hframe.
    destruct (taxa_frame taxonomy) as [taxa | e]; [eauto | discriminate]. }
  destruct Htaxa as [taxa Htaxa].
  assert (Hrows : forall r : Spec,
            In r (filter (fun r : Spec => gt (relative r) cutoff)
                         (merge files frame rank)) <->
            In (model_file r) files /\ In (long r) frame /\
            get (rank_name rank) (model_file r) = taxon r /\
            exceeds (relative r) cutoff).
  { intros r. rewrite filter_In, in_merge, gt_exceeds, cell_eqb_eq. tauto. }
  exists taxa, frame, files.
  split; [exact Htaxa |]. split; [| split; [| split; [| split; [| split]]]].
  - intros i row Hin.
    apply (taxa_frame_inv _ _ i row Htaxa) in Hin.
    destruct Hin as [text [Hin [Hlen ->]]].
    destruct (taxa_row i _ Hlen) as [Hcols Hget].
    split; [exact Hcols |]. exists text. auto.
  - intros i first others Hin Hwf.
    pose proof (split_replace_lineage first others Hwf) as Hparse.
    assert (Hlen : (List.length (str_split
                      (str_replace (lineage first others))) <= 7)%nat).
    { unfold taxa_frame in Htaxa.
      destruct (max_width _ =? List.length RANKS)%nat eqn:E;
        [| discriminate].
      apply Nat.eqb_eq in E. unfold max_width in E.
      assert (Hle : Forall (fun k => (k <= 7)%nat)
                (map (fun p : string * list string => List.length (snd p))
                   (map (fun e : string * string =>
                           (fst e, str_split (str_replace (snd e))))
                        taxonomy))).
      { apply list_max_le. rewrite E. apply Nat.le_refl. }
      rewrite Forall_forall in Hle. apply Hle.
      rewrite map_map. simpl.
      apply (in_map (fun x : string * string =>
                       List.length (str_split (str_replace (snd x))))
                    taxonomy (i, lineage first others)).
      exact Hin. }
    eexists. split.
    + apply (taxa_frame_inv _ _ i _ Htaxa).
      exists (lineage first others). split; [exact Hin |].
      split; [exact Hlen | reflexivity].
    + rewrite <- Hparse. apply (taxa_row i _ Hlen).
  - exact Hframe.
  - exact Hfiles.
  - exact Hrows.
  - intros a Ha Hnone r Hr <-. apply Hrows in Hr.
    destruct Hr as [Hmf [_ [Hkey _]]]. exact (Hnone _ Hmf Hkey).
Qed.

Lemma build_spec_joins_on_rank_witness :
  exists taxa frame files,
    taxa_frame Sample.taxonomy = Ok taxa /\
    (forall i row, In (i, row) taxa ->
       map fst row = map rank_name RANKS ++ ["taxid"] /\
       exists text,
         In (i, text) Sample.taxonomy /\
         forall level,
           get (rank_name level) row
           = nth_error (str_split (str_replace text)) (rank_index level)) /\
    (forall i first others,
       In (i, lineage first others) Sample.taxonomy ->
       Forall well_formed (first :: others) ->
       exists row,
         In (i, row) taxa /\
         forall level,
           get (rank_name level) row
           = nth_error (map name (first :: others)) (rank_index level)) /\
    abundance_frame biom_collapse Sample.table Sample.taxonomy genus
    = Ok frame /\
    model_files Sample.models genus = Ok files /\
    (forall r : Spec,
       In r Sample.spec <->
       In (model_file r) files /\ In (long r) frame /\
       get (rank_name genus) (model_file r) = taxon r /\
       exceeds (relative r) Sample.cutoff) /\
    (forall a : Long,
       In a frame ->
       (forall m, In m files -> get (rank_name genus) m <> taxon a) ->
       forall r : Spec, In r Sample.spec -> long r <> a).
Proof.
  apply (build_spec_joins_on_rank biom_collapse Sample.table Sample.taxonomy
           Sample.models genus Sample.cutoff Sample.spec).
  vm_compute. reflexivity.
Defined.

(** The two regular expressions on small texts. *)
Example str_replace_deletes_each_prefix :
  str_replace "k__Bacteria; p__Firmicutes" = "Bacteria; Firmicutes"
  /\ str_replace "kk____a_b__c___" = "k__a__".
Proof. split; reflexivity. Qed.

Example str_split_eats_white_space :
  str_split "Bacteria;  Firmicutes;;x" = ["Bacteria"; "Firmicutes"; ""; "x"]
  /\ str_split ";a; ;  b;" = [""; "a"; ""; "b"; ""].
Proof. split; reflexivity. Qed.

(** The classes are those of Python strings: a letter with an accent (U+00E9,
    two bytes) or a Chinese character is a character of [\w], and a no-break
    space (U+00A0) or an ideographic space (U+3000) behind a semicolon is
    white space. *)
Example str_replace_deletes_a_prefix_of_any_script :
  str_replace "é__Bacteria; p__Firmicutes" = "Bacteria; Firmicutes"
  /\ str_replace "k__Café; 門__Firmicutes" = "Café; Firmicutes"
  /\ str_replace "é_Bacteria" = "é_Bacteria".
Proof. repeat split. Qed.

Example str_split_eats_any_white_space :
  str_split ("Bacteria;" ++ no_break_space ++ "Firmicutes;　Bacilli")
  = ["Bacteria"; "Firmicutes"; "Bacilli"]
  /\ str_split "Bacteria;é" = ["Bacteria"; "é"]
  /\ str_split ("a" ++ no_break_space ++ "b; c")
     = [("a" ++ no_break_space ++ "b")%string; "c"].
Proof. repeat split. Qed.

(** A lineage in which the letter of the first level has an accent and a
    no-break space follows the first semicolon: its levels are well formed,
    and its fields are the names. *)
Example accented_lineage :
  Forall well_formed
    [{| letter := "é"; name := "Bacteria"; gap := "" |};
     {| letter := "p"; name := "Firmicutes"; gap := no_break_space |}] /\
  str_split
    (str_replace
       (lineage {| letter := "é"; name := "Bacteria"; gap := "" |}
          [{| letter := "p"; name := "Firmicutes";
              gap := no_break_space |}]))
  = ["Bacteria"; "Firmicutes"].
Proof.
  split; [| reflexivity].
  repeat (apply Forall_cons || apply Forall_nil);
    (refine (conj (conj _ _) (conj _ (conj _ (conj _ (conj _ _)))));
     [ discriminate
     | vm_compute; reflexivity
     | intros c Hc; simpl in Hc;
       repeat (destruct Hc as [<- | Hc]; [discriminate |]); contradiction
     | reflexivity
     | vm_compute; reflexivity
     | reflexivity
     | vm_compute; reflexivity ]).
Qed.

(** The first entry of the sample taxonomy is a lineage of well-formed
    levels. *)
Example sample_lineage :
  In ("ASV1", lineage Sample.top Sample.levels) Sample.taxonomy /\
  Forall well_formed (Sample.top :: Sample.levels).
Proof.
  split; [left; reflexivity |].
  repeat (apply Forall_cons || apply Forall_nil);
    (refine (conj (conj _ _) (conj _ (conj _ (conj _ (conj _ _)))));
     [ discriminate
     | vm_compute; reflexivity
     | intros c Hc; simpl in Hc;
       repeat (destruct Hc as [<- | Hc]; [discriminate |]); contradiction
     | reflexivity
     | vm_compute; reflexivity
     | reflexivity
     | vm_compute; reflexivity ]).
Qed.

(** ** The registered schemas *)

Lemma Qlt_bool (x y : Q) : negb (Qle_bool y x) = true <-> x < y.
Proof.
  rewrite negb_true_iff. split.
  - intros H. apply Qnot_le_lt. intros Hle.
    apply Qle_bool_iff in Hle. congruence.
  - intros H. destruct (Qle_bool y x) eqn:E; [| reflexivity].
    apply Qle_bool_iff in E. apply Qlt_not_le in H. contradiction.
Qed.

(** C3, as the code has it: the tradeoff of grow admits exactly the numbers
    of (0, 1]; tradeoff_min admits exactly the numbers of the open interval
    (0, 1), so it rejects 1; tradeoff_max admits, among the numbers other
    than 0, exactly those of (0, 1]. *)
Theorem tradeoff_schemas (v : Q) :
  (accepts grow_registration "tradeoff" v = true <-> 0 < v /\ v <= 1) /\
  (accepts tradeoff_registration "tradeoff_min" v = true <->
   0 < v /\ v < 1) /\
  (~ v == 0 ->
   (accepts tradeoff_registration "tradeoff_max" v = true <->
    0 < v /\ v <= 1)).
Proof.
  unfold accepts, admits, is_element. simpl.
  split; [| split].
  - rewrite andb_true_iff, Qlt_bool, Qle_bool_iff. tauto.
  - rewrite andb_true_iff, !Qlt_bool. tauto.
  - intros Hv. rewrite andb_true_iff, !Qle_bool_iff. split.
    + intros [H0 H1]. split; [| exact H1].
      apply Qle_lt_or_eq in H0. destruct H0 as [H0 | H0]; [exact H0 |].
      exfalso. apply Hv. now symmetry.
    + intros [H0 H1]. split; [now apply Qlt_le_weak | exact H1].
Qed.

Lemma tradeoff_schemas_witness :
  (accepts grow_registration "tradeoff" 1 = true <-> 0 < 1 /\ 1 <= 1) /\
  (accepts tradeoff_registration "tradeoff_min" 1 = true <->
   0 < 1 /\ 1 < 1) /\
  (accepts tradeoff_registration "tradeoff_max" 1 = true <->
   0 < 1 /\ 1 <= 1).
Proof.
  destruct (tradeoff_schemas 1) as [Hgrow [Hmin Hmax]].
  split; [exact Hgrow | split; [exact Hmin |]].
  apply Hmax. discriminate.
Defined.

(** The schema of tradeoff_min does not admit 1. *)
Lemma tradeoff_min_rejects_one :
  accepts tradeoff_registration "tradeoff_min" 1 = false.
Proof. reflexivity. Qed.

(** The schema of tradeoff_max admits 0, against its own description
    ("larger than 0.0"). *)
Example tradeoff_max_admits_zero :
  accepts tradeoff_registration "tradeoff_max" 0 = true.
Proof. reflexivity. Qed.

(** C4 fails on the code: the registration of build lists an input medium
    that build does not take, and the registration of grow lacks the
    parameter medium that grow takes. *)
Theorem build_registration_lists_medium :
  registration_ok build_registration = Some false /\
  mem "medium" (registered_names build_registration) = true /\
  option_map (mem "medium") (signature q2_micom_build) = Some false /\
  registration_ok grow_registration = Some false /\
  mem "medium" (registered_names grow_registration) = false /\
  option_map (mem "medium") (signature q2_micom_grow) = Some true.
Proof. repeat split. Qed.

(** ** The calls of grow and build *)

(** C5: grow calls micom's grow once, with the manifest of the model
    directory, with the medium and the tradeoff it was given, and its own
    outcome is that of this call. *)
Theorem grow_passes_medium_and_tradeoff (mw : MwGrow)
    (fresh : MicomResultsDirectory) (models : CommunityModelDirectory)
    (medium : DataFrame) (tradeoff : Q) (threads : Z) :
  let model_folder :=
    replace (model_files_path_maker models "blub") "blub.pickle" "" in
  simulations (calls (grow mw fresh models medium tradeoff threads))
  = [(manifest models, model_folder, medium, tradeoff)] /\
  outcome (grow mw fresh models medium tradeoff threads)
  = (_ <- mw (manifest models) model_folder medium tradeoff threads ;;
     Ok fresh).
Proof.
  unfold grow. simpl.
  destruct (mw _ _ medium tradeoff threads) as [[growth exchanges] | e];
    split; reflexivity.
Qed.


(** C9: of the frames that micom's grow returns, the growth rates are written
    as they are, and the exchanges written are exactly the rows whose flux is
    not missing. *)
Theorem grow_writes_results (mw : MwGrow) (fresh : MicomResultsDirectory)
    (models : CommunityModelDirectory) (medium : DataFrame) (tradeoff : Q)
    (threads : Z) (growth : DataFrame) (exchanges : list Exchange) :
  mw (manifest models)
     (replace (model_files_path_maker models "blub") "blub.pickle" "")
     medium tradeoff threads
  = Ok (growth, exchanges) ->
  exists call_ written,
    calls (grow mw fresh models medium tradeoff threads)
    = [call_;
       growth_to_csv growth (growth_rates_path_maker fresh);
       exchanges_to_parquet written (exchange_fluxes_path_maker fresh)] /\
    (forall e, In e written <-> In e exchanges /\ flux e <> NaN) /\
    outcome (grow mw fresh models medium tradeoff threads) = Ok fresh.
Proof.
  intros Hmw. unfold grow. simpl. rewrite Hmw. simpl.
  eexists. eexists. split; [reflexivity |]. split; [| reflexivity].
  intros e. rewrite filter_In.
  destruct (flux e); simpl; intuition congruence.
Qed.

Lemma grow_writes_results_witness :
  exists call_ written,
    calls (grow Sample.simulate Sample.results Sample.community_models
             Sample.medium (1 # 2) 4)
    = [call_;
       growth_to_csv Sample.growth (growth_rates_path_maker Sample.results);
       exchanges_to_parquet written
         (exchange_fluxes_path_maker Sample.results)] /\
    (forall e, In e written <-> In e Sample.exchanges /\ flux e <> NaN) /\
    outcome (grow Sample.simulate Sample.results Sample.community_models
               Sample.medium (1 # 2) 4)
    = Ok Sample.results.
Proof.
  apply (grow_writes_results Sample.simulate Sample.results
           Sample.community_models Sample.medium (1 # 2) 4 Sample.growth
           Sample.exchanges).
  reflexivity.
Defined.

(** The model folder of grow is the path of a model without its file
    name. *)
Example sample_model_folder :
  replace (model_files_path_maker Sample.community_models "blub")
          "blub.pickle" ""
  = "/models/".
Proof. reflexivity. Qed.

(** In the sample the float64 shares of S1 are 0.3, 0.2 and 0.5, and these
    three add up to one. *)
Example sample_shares :
  abundance_frame64 sequential_sum biom_collapse Sample.table Sample.taxonomy
    genus = Ok Case.float_frame /\
  Qsum [5404319552844595 # 18014398509481984;
        3602879701896397 # 18014398509481984; 1 # 2] == 1.
Proof. split; vm_compute; reflexivity. Qed.

(** Labelling the columns of taxa fails unless the widest entry has seven
    fields. *)
Example six_levels_raise :
  taxa_frame [("ASV1", "k__Bacteria; p__Firmicutes; c__Bacilli; o__Lactobacillales; f__Lactobacillaceae; g__Lactobacillus")]
  = Raise ValueError.
Proof. reflexivity. Qed.

(** build on the sample: one community per sample that is left, built with
    the thread count given. *)
Example sample_build :
  build biom_collapse Sample.community_models Sample.table Sample.taxonomy
    Sample.models genus 2 Sample.cutoff
  = ([workflow build_and_save [("S1", Sample.spec, "/models/S1.pickle")] 2;
      tax_to_csv Sample.spec "/models/manifest.csv"],
     Ok Sample.community_models).
Proof. vm_compute. reflexivity. Qed.

(** * Further properties *)

(** ** Fields and semicolons *)

Lemma split_fields_length (s : string) (skip : nat) (after_sep : bool) :
  List.length (snd (split_fields skip after_sep s))
  = count_semicolons (drop skip s).
Proof.
  revert skip after_sep. induction s as [| c s IH]; intros skip after_sep;
    [now destruct skip |].
  destruct skip as [| k]; [| apply IH].
  cbn [split_fields drop].
  destruct (if after_sep then space_length (String c s) else 0%nat)
    as [| k] eqn:E.
  - cbn [count_semicolons]. destruct (Ascii.eqb c semicolon).
    + specialize (IH 0%nat true). rewrite drop_zero in IH.
      destruct (split_fields 0 true s) as [f fs]. simpl in *. now rewrite IH.
    + specialize (IH 0%nat false). rewrite drop_zero in IH.
      destruct (split_fields 0 false s) as [f fs]. simpl in *. exact IH.
  - rewrite IH. destruct after_sep; [| discriminate].
    apply space_length_inv in E. destruct E as [cp [E Hsp]].
    exact (drop_char_semicolons _ _ _ E (space_not_semicolon cp Hsp)).
Qed.

Lemma split_fields_clean (s : string) (skip : nat) (after_sep : bool) :
  no_semicolon (fst (split_fields skip after_sep s)) /\
  forall f, In f (snd (split_fields skip after_sep s)) -> no_semicolon f.
Proof.
  revert skip after_sep. induction s as [| c s IH]; intros skip after_sep.
  - split; [intros c [] | intros f []].
  - destruct skip as [| k]; [| apply IH]. cbn [split_fields].
    destruct (if after_sep then space_length (String c s) else 0%nat);
      [| apply IH].
    destruct (Ascii.eqb c semicolon) eqn:E.
    + specialize (IH 0%nat true). destruct (split_fields 0 true s) as [f fs].
      simpl in *. destruct IH as [Hf Hfs]. split; [intros x [] |].
      intros g [<- | Hg]; auto.
    + specialize (IH 0%nat false). destruct (split_fields 0 false s) as [f fs].
      simpl in *. destruct IH as [Hf Hfs]. split; [| exact Hfs].
      intros x [<- | Hx]; [now apply Ascii.eqb_neq | now apply Hf].
Qed.

Lemma str_split_length (s : string) :
  List.length (str_split s) = S (count_semicolons s).
Proof.
  unfold str_split. pose proof (split_fields_length s 0 false) as Hlen.
  rewrite drop_zero in Hlen.
  destruct (split_fields 0 false s) as [f fs]. simpl in *. now rewrite Hlen.
Qed.

(** X1: splitting gives one field more than the text has semicolons (never
    no field at all), and no field holds a semicolon. *)
Theorem str_split_counts_semicolons (s : string) :
  List.length (str_split s) = S (count_semicolons s) /\
  Forall no_semicolon (str_split s).
Proof.
  split; [apply str_split_length |].
  unfold str_split. pose proof (split_fields_clean s 0 false) as [Hf Hfs].
  destruct (split_fields 0 false s) as [f fs]. simpl in *.
  constructor; [exact Hf | now apply Forall_forall].
Qed.

Lemma match_length_semicolons (s : string) (n : nat) :
  match_length s = S n ->
  count_semicolons (drop (S n) s) = count_semicolons s.
Proof.
  unfold match_length.
  destruct (word_length s) as [| k] eqn:E; [discriminate |].
  destruct (prefix "__" (drop (S k) s)) eqn:Ep; [| discriminate].
  intros [= <-].
  apply word_length_inv in E. destruct E as [cp [E Hw]].
  rewrite <- (drop_char_semicolons _ _ _ E (word_not_semicolon cp Hw)).
  apply prefix_underscores in Ep. destruct Ep as [rest Ep].
  replace (S (k + 2)) with (S k + 2)%nat by lia.
  rewrite drop_add, Ep. reflexivity.
Qed.

Lemma replace_prefix_semicolons (s : string) (skip : nat) :
  count_semicolons (replace_prefix skip s) = count_semicolons (drop skip s).
Proof.
  revert skip. induction s as [| c s IH]; intros skip.
  - destruct skip; reflexivity.
  - destruct skip as [| k]; [| apply IH].
    cbn [replace_prefix drop].
    destruct (match_length (String c s)) as [| n] eqn:E.
    + cbn [count_semicolons]. now rewrite IH, drop_zero.
    + rewrite IH. exact (match_length_semicolons _ _ E).
Qed.

Lemma list_max_succ (l : list nat) :
  l <> [] -> list_max (map S l) = S (list_max l).
Proof.
  induction l as [| a l IH]; [contradiction |]. intros _.
  destruct l as [| b l]; [simpl; now rewrite Nat.max_0_r |].
  change (list_max (map S (a :: b :: l)))
    with (Nat.max (S a) (list_max (map S (b :: l)))).
  rewrite IH by discriminate. reflexivity.
Qed.

Lemma max_width_semicolons (taxonomy : StrSeries) :
  max_width (map (fun e => (fst e, str_split (str_replace (snd e))))
                 taxonomy)
  = list_max (map (fun e => S (count_semicolons (snd e))) taxonomy).
Proof.
  unfold max_width. rewrite map_map. f_equal. apply map_ext.
  intros e. simpl.
  rewrite str_split_length.
  unfold str_replace. now rewrite replace_prefix_semicolons.
Qed.

Lemma width_seven (taxonomy : StrSeries) :
  max_width (map (fun e => (fst e, str_split (str_replace (snd e))))
                 taxonomy) = 7%nat
  <-> list_max (map (fun e => count_semicolons (snd e)) taxonomy) = 6%nat.
Proof.
  rewrite max_width_semicolons.
  rewrite <- (map_map (fun e : string * string => count_semicolons (snd e)) S).
  destruct taxonomy as [| e taxonomy]; [simpl; split; discriminate |].
  set (l := map (fun e : string * string => count_semicolons (snd e))
                (e :: taxonomy)).
  assert (Hl : l <> []) by discriminate.
  rewrite (list_max_succ l Hl). lia.
Qed.

(** X2: the frame taxa can be labelled with the seven ranks exactly when the
    deepest lineage of the taxonomy has six semicolons; the rank prefixes
    and the white space play no part in it. *)
Theorem taxa_frame_needs_six_semicolons (taxonomy : StrSeries) :
  (exists taxa, taxa_frame taxonomy = Ok taxa) <->
  list_max (map (fun e => count_semicolons (snd e)) taxonomy) = 6%nat.
Proof.
  rewrite <- width_seven. unfold taxa_frame. simpl List.length.
  destruct (max_width _ =? 7)%nat eqn:E.
  - apply Nat.eqb_eq in E. split; [auto | eauto].
  - apply Nat.eqb_neq in E. split; [intros [taxa H]; discriminate | tauto].
Qed.

(** X3: a taxonomy whose deepest lineage has more or fewer than six
    semicolons (an empty taxonomy too) makes build_spec raise ValueError,
    whatever the table, the models, the rank and the cutoff are. *)
Theorem build_spec_raises_on_other_depths (collapse : Collapse)
    (t : Table string) (taxonomy : StrSeries) (models : SBMLDirectory)
    (rank : Rank) (cutoff : Q) :
  list_max (map (fun e => count_semicolons (snd e)) taxonomy) <> 6%nat ->
  build_spec collapse t taxonomy models rank cutoff = Raise ValueError.
Proof.
  intros H. rewrite <- width_seven in H.
  unfold build_spec, merged_frame, abundance_frame, taxa_frame.
  simpl List.length. apply Nat.eqb_neq in H. rewrite H. reflexivity.
Qed.

Lemma build_spec_raises_on_other_depths_witness :
  build_spec biom_collapse Sample.table
    [("ASV1", "k__Bacteria; p__Firmicutes; c__Bacilli")] Sample.models genus
    Sample.cutoff
  = Raise ValueError.
Proof.
  apply build_spec_raises_on_other_depths. vm_compute. discriminate.
Defined.

(** X4: a text without two underscores in a row loses nothing when the rank
    prefixes are deleted. *)
Theorem str_replace_keeps_plain_text (s : string) :
  no_double_underscore s = true -> str_replace s = s.
Proof.
  intros H. unfold str_replace.
  rewrite <- (append_empty s) at 1.
  rewrite replace_prefix_name;
    [apply append_empty | exact H | reflexivity | reflexivity].
Qed.

Lemma str_replace_keeps_plain_text_witness :
  str_replace "Clostridium_sensu_stricto_1; uncultured_bacterium"
  = "Clostridium_sensu_stricto_1; uncultured_bacterium".
Proof.
  apply str_replace_keeps_plain_text. reflexivity.
Defined.

(** ** Looking up a feature *)

Lemma loc_missing (taxa : list (string * Series)) (id_ : string)
    (rank : Rank) :
  ~ In id_ (map fst taxa) -> loc taxa id_ rank = Raise KeyError.
Proof.
  induction taxa as [| [i row] taxa IH]; intros H; [reflexivity |].
  simpl in *. destruct (String.eqb i id_) eqn:E.
  - apply String.eqb_eq in E. tauto.
  - apply IH. tauto.
Qed.

Lemma loc_found (taxa : list (string * Series)) (id_ : string)
    (row : Series) (rank : Rank) :
  NoDup (map fst taxa) -> In (id_, row) taxa ->
  loc taxa id_ rank = Ok (get (rank_name rank) row).
Proof.
  induction taxa as [| [i r] taxa IH]; intros Hnd Hin; [contradiction |].
  simpl in *. inversion Hnd as [| ? ? Hi Hnd']; subst.
  destruct Hin as [[= -> ->] | Hin].
  - now rewrite String.eqb_refl.
  - destruct (String.eqb i id_) eqn:E; [| now apply IH].
    apply String.eqb_eq in E. subst i. exfalso. apply Hi.
    apply (in_map fst) in Hin. exact Hin.
Qed.

Lemma taxa_frame_index (taxonomy : StrSeries)
    (taxa : list (string * Series)) :
  taxa_frame taxonomy = Ok taxa -> map fst taxa = map fst taxonomy.
Proof.
  unfold taxa_frame.
  destruct (max_width _ =? List.length RANKS)%nat; [| discriminate].
  intros [= <-]. now rewrite !map_map.
Qed.

Lemma unique_entry (taxonomy : StrSeries) (i x y : string) :
  NoDup (map fst taxonomy) -> In (i, x) taxonomy -> In (i, y) taxonomy ->
  x = y.
Proof.
  induction taxonomy as [| [j z] taxonomy IH]; intros Hnd Hx Hy;
    [contradiction |].
  simpl in *. inversion Hnd as [| ? ? Hj Hnd']; subst.
  destruct Hx as [Hx | Hx], Hy as [Hy | Hy].
  - congruence.
  - injection Hx as -> _. exfalso. apply Hj.
    apply (in_map fst) in Hy. exact Hy.
  - injection Hy as -> _. exfalso. apply Hj.
    apply (in_map fst) in Hx. exact Hx.
  - now apply IH.
Qed.

(** X5: in the frame taxa, looking up a feature id that the taxonomy does not
    have raises KeyError; looking up an id of a taxonomy without duplicate
    ids gives the field of its lineage at the position of the rank, or a
    missing value when the lineage stops before that rank. *)
Theorem loc_reads_the_lineage (taxonomy : StrSeries)
    (taxa : list (string * Series)) (id_ : string) (rank : Rank) :
  taxa_frame taxonomy = Ok taxa ->
  (~ In id_ (map fst taxonomy) -> loc taxa id_ rank = Raise KeyError) /\
  (forall text,
     NoDup (map fst taxonomy) -> In (id_, text) taxonomy ->
     loc taxa id_ rank
     = Ok (nth_error (str_split (str_replace text)) (rank_index rank))).
Proof.
  intros Htaxa. pose proof (taxa_frame_index _ _ Htaxa) as Hidx. split.
  - intros H. apply loc_missing. now rewrite Hidx.
  - intros text Hnd Hin.
    assert (Hlen : (List.length (str_split (str_replace text)) <= 7)%nat).
    { assert (Hrow : exists row, In (id_, row) taxa).
      { unfold taxa_frame in Htaxa.
        destruct (max_width _ =? List.length RANKS)%nat; [| discriminate].
        injection Htaxa as <-. eexists.
        apply in_map_iff. exists (id_, str_split (str_replace text)).
        split; [reflexivity |].
        apply in_map_iff. now exists (id_, text). }
      destruct Hrow as [row Hrow].
      apply (taxa_frame_inv _ _ id_ row Htaxa) in Hrow.
      destruct Hrow as [text' [Hin' [Hlen' _]]].
      now rewrite (unique_entry taxonomy id_ text text' Hnd Hin Hin'). }
    rewrite (loc_found taxa id_
               (combine (map rank_name RANKS)
                  (expand 7 (str_split (str_replace text)))
                ++ [("taxid", Some id_)])).
    + f_equal. apply (taxa_row id_ _ Hlen).
    + now rewrite Hidx.
    + apply (taxa_frame_inv _ _ id_ _ Htaxa). exists text. auto.
Qed.

Lemma loc_reads_the_lineage_witness :
  (~ In "ASV2" (map fst Sample.taxonomy) ->
   loc Case.taxa "ASV2" genus = Raise KeyError) /\
  (forall text,
     NoDup (map fst Sample.taxonomy) -> In ("ASV2", text) Sample.taxonomy ->
     loc Case.taxa "ASV2" genus
     = Ok (nth_error (str_split (str_replace text)) (rank_index genus))).
Proof.
  apply (loc_reads_the_lineage Sample.taxonomy Case.taxa "ASV2" genus).
  vm_compute. reflexivity.
Defined.

(** ** The melted frame *)

Lemma in_melt (t : Table cell) (r : Melted) :
  In r (melt t) ->
  In (taxon r) (ids t) /\ In (sample_id r) (samples t) /\
  taxon r <> Some "sample_id".
Proof.
  unfold melt. rewrite in_flat_map. intros [[k line] [Hcol Hr]].
  apply filter_In in Hcol. destruct Hcol as [Hcol Hk].
  apply in_map_iff in Hr. destruct Hr as [[s v] [<- Hsv]]. simpl in *.
  split; [exact (in_combine_l _ _ _ _ Hcol) |].
  split; [exact (in_combine_l _ _ _ _ Hsv) |].
  intros ->. discriminate.
Qed.

Lemma abundance_frame_melt (collapse : Collapse) (t : Table string)
    (taxonomy : StrSeries) (rank : Rank) (frame : list Long) :
  abundance_frame collapse t taxonomy rank = Ok frame ->
  exists taxa collapsed,
    taxa_frame taxonomy = Ok taxa /\
    collapse (fun id_ => loc taxa id_ rank) t = Ok collapsed /\
    frame = with_relative (melt collapsed).
Proof.
  unfold abundance_frame.
  destruct (taxa_frame taxonomy) as [taxa | e]; simpl; [| discriminate].
  destruct (collapse _ t) as [c | e] eqn:E; simpl; [| discriminate].
  intros [= <-]. now exists taxa, c.
Qed.

(** X6: line 42 writes the sample ids over a column named sample_id, so a
    taxon whose name at the rank is "sample_id" is in no row that build_spec
    returns, even when the model database has a model of that name. *)
Theorem build_spec_loses_taxon_sample_id (collapse : Collapse)
    (t : Table string) (taxonomy : StrSeries) (models : SBMLDirectory)
    (rank : Rank) (cutoff : Q) (spec : list Spec) :
  build_spec collapse t taxonomy models rank cutoff = Ok spec ->
  forall r : Spec,
    In r spec ->
    taxon r <> Some "sample_id" /\
    get (rank_name rank) (model_file r) <> Some "sample_id".
Proof.
  intros Hspec r Hr.
  apply build_spec_inv in Hspec. destruct Hspec as [merged [Hm ->]].
  apply merged_frame_inv in Hm.
  destruct Hm as [frame [files [Hframe [_ [_ ->]]]]].
  apply filter_In in Hr. destruct Hr as [Hr _].
  apply in_merge in Hr. destruct Hr as [_ [Hr Hkey]].
  apply cell_eqb_eq in Hkey.
  apply abundance_frame_melt in Hframe.
  destruct Hframe as [taxa [collapsed [_ [_ ->]]]].
  apply in_with_relative in Hr. destruct Hr as [Hr _].
  apply in_melt in Hr. destruct Hr as [_ [_ Hne]].
  split; [exact Hne | now rewrite Hkey].
Qed.

Lemma build_spec_loses_taxon_sample_id_witness :
  (exists taxa,
     taxa_frame Case.odd_taxonomy = Ok taxa /\
     loc taxa "ASV2" genus = Ok (Some "sample_id")) /\
  (exists m,
     In m (rows (sbml_manifest Case.odd_models)) /\
     get (rank_name genus) m = Some "sample_id") /\
  build_spec biom_collapse Case.odd_table Case.odd_taxonomy Case.odd_models
    genus Sample.cutoff = Ok Case.odd_spec /\
  Forall (fun r : Spec =>
            taxon r <> Some "sample_id" /\
            get (rank_name genus) (model_file r) <> Some "sample_id")
         Case.odd_spec.
Proof.
  split; [| split; [| split]].
  - eexists. split; vm_compute; reflexivity.
  - eexists. split; [right; left; reflexivity | reflexivity].
  - vm_compute. reflexivity.
  - apply Forall_forall.
    apply (build_spec_loses_taxon_sample_id biom_collapse Case.odd_table
             Case.odd_taxonomy Case.odd_models genus Sample.cutoff).
    vm_compute. reflexivity.
Defined.

(** ** Depth and shares *)

Lemma Qsum_app (l1 l2 : list Q) : Qsum (l1 ++ l2) == Qsum l1 + Qsum l2.
Proof.
  induction l1 as [| a l1 IH]; simpl; [ring | rewrite IH; ring].
Qed.

Lemma depth_app (l1 l2 : list Melted) (s : string) :
  depth (l1 ++ l2) s == depth l1 s + depth l2 s.
Proof.
  unfold depth. rewrite filter_app, map_app. apply Qsum_app.
Qed.

Lemma column_rows_absent (k : cell) (names : list string) (line : list Q)
    (s : string) :
  ~ In s names ->
  filter (of_sample s)
    (map (fun sv => {| sample_id := fst sv; taxon := k; abundance := snd sv |})
         (combine names line))
  = [].
Proof.
  revert line. induction names as [| x names IH]; intros line Hs;
    [reflexivity |].
  destruct line as [| v line]; [reflexivity |].
  simpl. unfold of_sample at 1. simpl.
  assert (Hx : String.eqb x s = false).
  { apply String.eqb_neq. intros ->. apply Hs. now left. }
  rewrite Hx. apply IH. intros H. apply Hs. now right.
Qed.

Lemma column_depth (k : cell) (names : list string) (line : list Q)
    (j : nat) :
  NoDup names -> List.length line = List.length names ->
  (j < List.length names)%nat ->
  depth
    (map (fun sv => {| sample_id := fst sv; taxon := k; abundance := snd sv |})
         (combine names line))
    (nth j names "")
  == nth j line 0.
Proof.
  revert line j. induction names as [| x names IH]; intros line j Hnd Hlen Hj;
    [simpl in Hj; lia |].
  destruct line as [| v line]; [discriminate |].
  inversion Hnd as [| ? ? Hx Hnd']; subst.
  simpl in Hlen, Hj. unfold depth. simpl combine. simpl map at 2.
  destruct j as [| j]; simpl nth.
  - simpl filter. unfold of_sample at 1. simpl. rewrite String.eqb_refl.
    rewrite column_rows_absent by exact Hx. simpl. ring.
  - simpl filter. unfold of_sample at 1. simpl.
    assert (Hne : String.eqb x (nth j names "") = false).
    { apply String.eqb_neq. intros ->. apply Hx. apply nth_In. lia. }
    rewrite Hne. apply IH; [exact Hnd' | lia | lia].
Qed.

Lemma map_snd_combine {A B : Type} (l : list A) (l' : list B) :
  List.length l = List.length l' -> map snd (combine l l') = l'.
Proof.
  revert l'. induction l as [| a l IH]; intros [| b l'] H;
    try discriminate; [reflexivity |].
  simpl. f_equal. apply IH. now injection H.
Qed.

(** X7: for a collapsed table with distinct sample ids, one entry per sample
    in every line, one line per id and no id named sample_id, the depth of a
    sample in the melted frame is the sum of the entries of that sample over
    the lines of the table. *)
Theorem depth_is_column_total (t : Table cell) (j : nat) :
  NoDup (samples t) ->
  List.length (ids t) = List.length (data t) ->
  Forall (fun line => List.length line = List.length (samples t)) (data t) ->
  ~ In (Some "sample_id") (ids t) ->
  (j < List.length (samples t))%nat ->
  depth (melt t) (nth j (samples t) "") == column_total t j.
Proof.
  intros Hnd Hlen Hlines Hid Hj. unfold melt, column_total.
  rewrite forallb_filter_id.
  - rewrite <- (map_snd_combine (ids t) (data t) Hlen) at 2.
    assert (Hcols : forall col, In col (combine (ids t) (data t)) ->
                       List.length (snd col) = List.length (samples t)).
    { intros [k line] Hcol. apply in_combine_r in Hcol.
      rewrite Forall_forall in Hlines. now apply Hlines. }
    induction (combine (ids t) (data t)) as [| col cols IH]; simpl.
    + reflexivity.
    + rewrite depth_app, IH by (intros c Hc; apply Hcols; now right).
      rewrite column_depth; [reflexivity | exact Hnd | | exact Hj].
      apply Hcols. now left.
  - apply forallb_forall. intros [k line] Hcol. simpl.
    apply negb_true_iff. destruct (cell_eqb k (Some "sample_id")) eqn:E;
      [| reflexivity].
    apply cell_eqb_eq in E. subst k. exfalso. apply Hid.
    exact (in_combine_l _ _ _ _ Hcol).
Qed.

Lemma depth_is_column_total_witness :
  depth (melt Case.collapsed) (nth 0 (samples Case.collapsed) "")
  == column_total Case.collapsed 0.
Proof.
  apply depth_is_column_total.
  - repeat constructor; simpl; intuition discriminate.
  - reflexivity.
  - repeat constructor.
  - simpl. intuition discriminate.
  - simpl. lia.
Defined.

(** X8: when no abundance of the long frame is negative, the relative
    abundance of a row is either NaN (the sample is empty) or a number
    between 0 and 1; it is never infinite. *)
Theorem relative_is_a_share (collapse : Collapse) (t : Table string)
    (taxonomy : StrSeries) (rank : Rank) (frame : list Long) :
  abundance_frame collapse t taxonomy rank = Ok frame ->
  (forall r : Long, In r frame -> 0 <= abundance r) ->
  forall r : Long,
    In r frame ->
    relative r = NaN \/
    exists q, relative r = Fin q /\ 0 <= q /\ q <= 1.
Proof.
  intros Hframe Hpos r Hr.
  pose proof (abundance_frame_inv _ _ _ _ _ Hframe) as Hrel.
  set (m := map melted frame) in *.
  assert (Hm : forall a : Melted, In a m -> 0 <= abundance a).
  { intros a Ha. apply in_map_iff in Ha. destruct Ha as [r' [<- Hr']].
    now apply Hpos. }
  pose proof Hr as Hr'. rewrite Hrel in Hr'.
  apply in_with_relative in Hr'. destruct Hr' as [Hin ->].
  set (s := sample_id r). set (d := depth m s).
  assert (Hd : 0 <= d).
  { apply Qsum_nonneg. intros x Hx. apply in_map_iff in Hx.
    destruct Hx as [a [<- Ha]]. apply filter_In in Ha. apply Hm, Ha. }
  assert (Hle : abundance r <= d).
  { apply Qsum_member_le.
    - intros x Hx. apply in_map_iff in Hx. destruct Hx as [a [<- Ha]].
      apply filter_In in Ha. apply Hm, Ha.
    - apply in_map. apply filter_In. split; [exact Hin |].
      unfold of_sample. apply String.eqb_refl. }
  destruct (Qeq_dec d 0) as [Hz | Hnz].
  - left. apply true_divide_zero; [exact Hz |].
    apply Qle_antisym; [now rewrite <- Hz | now apply Hpos].
  - right. exists (abundance r / d).
    split; [now apply true_divide_nonzero |].
    assert (Hdpos : 0 < d).
    { apply Qle_lt_or_eq in Hd. destruct Hd as [Hd | Hd]; [exact Hd |].
      exfalso. apply Hnz. now symmetry. }
    split.
    + apply Qle_shift_div_l; [exact Hdpos |]. rewrite Qmult_0_l.
      now apply Hpos.
    + apply Qle_shift_div_r; [exact Hdpos |]. now rewrite Qmult_1_l.
Qed.

Lemma relative_is_a_share_witness :
  Forall (fun r : Long =>
            relative r = NaN \/
            exists q, relative r = Fin q /\ 0 <= q /\ q <= 1)
         Sample.long_frame.
Proof.
  apply Forall_forall.
  apply (relative_is_a_share biom_collapse Sample.table Sample.taxonomy
           genus).
  - vm_compute. reflexivity.
  - intros r Hr. simpl in Hr.
    repeat (destruct Hr as [<- | Hr]; [vm_compute; discriminate |]).
    contradiction.
Defined.

(** ** The cutoff, again *)

Lemma spec_row (collapse : Collapse) (t : Table string)
    (taxonomy : StrSeries) (models : SBMLDirectory) (rank : Rank) (cutoff : Q)
    (spec : list Spec) (r : Spec) :
  build_spec collapse t taxonomy models rank cutoff = Ok spec ->
  In r spec ->
  exists frame files,
    abundance_frame collapse t taxonomy rank = Ok frame /\
    model_files models rank = Ok files /\
    In (model_file r) files /\ In (long r) frame /\
    get (rank_name rank) (model_file r) = taxon r /\
    gt (relative r) cutoff = true /\
    relative r
    = true_divide (abundance r) (depth (map melted frame) (sample_id r)).
Proof.
  intros Hspec Hr.
  apply build_spec_inv in Hspec. destruct Hspec as [merged [Hm ->]].
  apply merged_frame_inv in Hm.
  destruct Hm as [frame [files [Hframe [Hfiles [_ ->]]]]].
  apply filter_In in Hr. destruct Hr as [Hr Hgt].
  apply in_merge in Hr. destruct Hr as [Hmf [Hlong Hkey]].
  apply cell_eqb_eq in Hkey.
  exists frame, files. repeat (split; [assumption |]).
  pose proof (abundance_frame_inv _ _ _ _ _ Hframe) as Hrel.
  rewrite Hrel in Hlong. now apply in_with_relative in Hlong.
Qed.

(** X9: with a cutoff that is not negative, no returned row has the
    abundance zero: a taxon that is absent from a sample is never part of
    the sample's community. *)
Theorem build_spec_drops_absent_taxa (collapse : Collapse) (t : Table string)
    (taxonomy : StrSeries) (models : SBMLDirectory) (rank : Rank) (cutoff : Q)
    (spec : list Spec) :
  0 <= cutoff ->
  build_spec collapse t taxonomy models rank cutoff = Ok spec ->
  forall r : Spec, In r spec -> ~ abundance r == 0.
Proof.
  intros Hc Hspec r Hr Ha.
  destruct (spec_row _ _ _ _ _ _ _ r Hspec Hr)
    as [frame [files [_ [_ [_ [_ [_ [Hgt Hrel]]]]]]]].
  rewrite Hrel in Hgt. unfold true_divide in Hgt.
  apply Qeq_bool_iff in Ha.
  destruct (Qeq_bool (depth (map melted frame) (sample_id r)) 0).
  - rewrite Ha in Hgt. discriminate.
  - apply gt_exceeds in Hgt. simpl in Hgt.
    apply Qeq_bool_iff in Ha.
    assert (Hq : abundance r / depth (map melted frame) (sample_id r) == 0).
    { unfold Qdiv. rewrite Ha. apply Qmult_0_l. }
    rewrite Hq in Hgt. apply Qlt_not_le in Hgt. contradiction.
Qed.

Lemma build_spec_drops_absent_taxa_witness :
  Forall (fun r : Spec => ~ abundance r == 0) Sample.spec.
Proof.
  apply Forall_forall.
  apply (build_spec_drops_absent_taxa biom_collapse Sample.table
           Sample.taxonomy Sample.models genus Sample.cutoff).
  - vm_compute. discriminate.
  - vm_compute. reflexivity.
Defined.

Lemma gt_weaken (x : float) (c c' : Q) :
  c <= c' -> gt x c' = true -> gt x c = true.
Proof.
  intros Hc H. apply gt_exceeds. apply gt_exceeds in H.
  destruct x; simpl in *; auto. now apply (Qle_lt_trans _ c').
Qed.

Lemma filter_of_filter {A : Type} (f g : A -> bool) (l : list A) :
  (forall x, f x = true -> g x = true) ->
  filter f (filter g l) = filter f l.
Proof.
  intros H. induction l as [| a l IH]; [reflexivity |].
  simpl. destruct (g a) eqn:Eg; simpl.
  - now rewrite IH.
  - destruct (f a) eqn:Ef; [| exact IH].
    apply H in Ef. congruence.
Qed.

(** X10: raising the cutoff only drops rows: the specification for a larger
    cutoff is the specification for the smaller one, filtered by the larger
    cutoff. *)
Theorem build_spec_for_larger_cutoff (collapse : Collapse) (t : Table string)
    (taxonomy : StrSeries) (models : SBMLDirectory) (rank : Rank)
    (cutoff cutoff' : Q) (spec : list Spec) :
  cutoff <= cutoff' ->
  build_spec collapse t taxonomy models rank cutoff = Ok spec ->
  build_spec collapse t taxonomy models rank cutoff'
  = Ok (filter (fun r : Spec => gt (relative r) cutoff') spec).
Proof.
  intros Hc Hspec.
  apply build_spec_inv in Hspec. destruct Hspec as [merged [Hm ->]].
  unfold build_spec. rewrite Hm. simpl. f_equal. symmetry.
  apply filter_of_filter. intros r. now apply gt_weaken.
Qed.

Lemma build_spec_for_larger_cutoff_witness :
  build_spec biom_collapse Sample.table Sample.taxonomy Sample.models genus
    (1 # 4)
  = Ok (filter (fun r : Spec => gt (relative r) (1 # 4)) Sample.spec).
Proof.
  apply (build_spec_for_larger_cutoff biom_collapse Sample.table
           Sample.taxonomy Sample.models genus Sample.cutoff (1 # 4)).
  - vm_compute. discriminate.
  - vm_compute. reflexivity.
Defined.

(** ** The model-file frame *)

Lemma insert_sorted_hd (k a : string) (ks : list string) :
  leb_true a k -> HdRel leb_true a ks -> HdRel leb_true a (insert_sorted k ks).
Proof.
  intros Hak Hks. destruct ks as [| k' ks]; simpl; [now constructor |].
  destruct (String.leb k k'); constructor; [exact Hak |].
  now inversion Hks.
Qed.

Lemma insert_sorted_sorted (k : string) (ks : list string) :
  Sorted leb_true ks -> Sorted leb_true (insert_sorted k ks).
Proof.
  induction ks as [| k' ks IH]; intros Hs; simpl.
  - repeat constructor.
  - inversion Hs as [| ? ? Hs' Hhd]; subst.
    destruct (String.leb k k') eqn:E.
    + constructor; [exact Hs | now constructor].
    + constructor; [now apply IH |].
      apply insert_sorted_hd; [| exact Hhd].
      unfold leb_true. destruct (String.leb_total k k'); congruence.
Qed.

Lemma sort_sorted (ks : list string) : Sorted leb_true (sort ks).
Proof.
  induction ks as [| k ks IH]; simpl;
    [constructor | now apply insert_sorted_sorted].
Qed.

Lemma present_with_file (label : string) (g : Series -> cell)
    (frame : list Series) :
  label <> "file" ->
  present label (map (fun r => set_item "file" (g r) r) frame)
  = present label frame.
Proof.
  intros Hne. unfold present. induction frame as [| r frame IH];
    [reflexivity |].
  simpl. rewrite IH. now rewrite get_set_item_other.
Qed.

(** The model-file frame has one row per group key and the key is its value
    at the rank. *)
Lemma model_files_keyed (models : SBMLDirectory) (rank : Rank)
    (files : list Series) :
  model_files models rank = Ok files ->
  exists f,
    files
    = map f (group_keys (rank_name rank) (rows (sbml_manifest models))) /\
    forall k,
      In k (group_keys (rank_name rank) (rows (sbml_manifest models))) ->
      get (rank_name rank) (f k) = Some k.
Proof.
  intros Hfiles. apply model_files_inv in Hfiles.
  set (label := rank_name rank) in *.
  set (frame := map _ (rows (sbml_manifest models))) in *.
  assert (Hlabel : label <> "file") by apply rank_name_not_file.
  assert (Hkeys : group_keys label frame
                  = group_keys label (rows (sbml_manifest models))).
  { unfold group_keys, frame. now rewrite present_with_file. }
  exists (fun k => reduce_group (group label k frame)). split.
  - rewrite Hfiles. unfold groupby_apply. now rewrite Hkeys.
  - intros k Hk. rewrite <- Hkeys in Hk. apply in_group_keys in Hk.
    unfold reduce_group. rewrite get_set_item_other by exact Hlabel.
    now apply hd_group.
Qed.

(** X11: the rows of the model-file frame carry, at the chosen rank, exactly
    the values that the manifest has there, missing values left out, each
    value once and in alphabetical order. *)
Theorem model_files_has_sorted_keys (models : SBMLDirectory) (rank : Rank)
    (files : list Series) :
  model_files models rank = Ok files ->
  exists keys,
    map (get (rank_name rank)) files = map Some keys /\
    NoDup keys /\
    Sorted leb_true keys /\
    forall k,
      In k keys <->
      exists r, In r (rows (sbml_manifest models)) /\
                get (rank_name rank) r = Some k.
Proof.
  intros Hfiles. destruct (model_files_keyed _ _ _ Hfiles) as [f [-> Hf]].
  exists (group_keys (rank_name rank) (rows (sbml_manifest models))).
  split; [| split; [| split]].
  - rewrite map_map. now apply map_ext_in.
  - apply NoDup_group_keys.
  - apply sort_sorted.
  - intros k. unfold group_keys. split; intros H.
    + apply (Permutation_in _ (sort_perm _)) in H.
      now apply in_unique, in_present in H.
    + apply (Permutation_in _ (Permutation_sym (sort_perm _))).
      now apply in_unique, in_present.
Qed.

Lemma model_files_has_sorted_keys_witness :
  exists keys,
    map (get (rank_name genus))
        [Sample.bacteroides; Sample.lactobacillus]
    = map Some keys /\
    NoDup keys /\
    Sorted leb_true keys /\
    forall k,
      In k keys <->
      exists r, In r (rows (sbml_manifest Sample.models)) /\
                get (rank_name genus) r = Some k.
Proof.
  apply (model_files_has_sorted_keys Sample.models genus).
  vm_compute. reflexivity.
Defined.

(** ** No row twice *)

Lemma NoDup_map_injective {A B : Type} (f : A -> B) (l : list A) :
  (forall x y, f x = f y -> x = y) -> NoDup l -> NoDup (map f l).
Proof.
  intros Hinj Hnd. induction Hnd as [| a l Ha Hnd IH]; simpl; constructor.
  - intros H. apply in_map_iff in H. destruct H as [x [Hx Hin]].
    apply Hinj in Hx. now subst.
  - exact IH.
Qed.

Lemma NoDup_merge (left : list Series) (right : list Long) (rank : Rank) :
  NoDup left -> NoDup right -> NoDup (merge left right rank).
Proof.
  intros Hl Hr. unfold merge.
  induction Hl as [| m left Hm Hl IH]; simpl; [constructor |].
  apply NoDup_app.
  - apply NoDup_map_injective; [| now apply NoDup_filter].
    intros x y H. now injection H.
  - exact IH.
  - intros r Hr1 Hr2. apply in_map_iff in Hr1.
    destruct Hr1 as [a [<- _]].
    apply in_flat_map in Hr2. destruct Hr2 as [m' [Hm' Hr2]].
    apply in_map_iff in Hr2. destruct Hr2 as [a' [H _]].
    injection H as -> _. contradiction.
Qed.

Lemma model_files_NoDup (models : SBMLDirectory) (rank : Rank)
    (files : list Series) :
  model_files models rank = Ok files ->
  NoDup files /\
  forall m m', In m files -> In m' files ->
               get (rank_name rank) m = get (rank_name rank) m' ->
               get (rank_name rank) m <> None ->
               m = m'.
Proof.
  intros Hfiles. destruct (model_files_keyed _ _ _ Hfiles) as [f [-> Hf]].
  split.
  - apply (NoDup_map_inv (get (rank_name rank))).
    rewrite map_map.
    assert (E : map (fun k => get (rank_name rank) (f k))
                    (group_keys (rank_name rank) (rows (sbml_manifest models)))
                = map Some
                    (group_keys (rank_name rank)
                       (rows (sbml_manifest models))))
      by (apply map_ext_in; exact Hf).
    rewrite E.
    apply NoDup_map_injective; [congruence | apply NoDup_group_keys].
  - intros m m' Hm Hm' Hkey _.
    apply in_map_iff in Hm. destruct Hm as [k [<- Hk]].
    apply in_map_iff in Hm'. destruct Hm' as [k' [<- Hk']].
    rewrite (Hf k Hk), (Hf k' Hk') in Hkey. now injection Hkey as ->.
Qed.

(** X13: an abundance row meets at most one model-file row, however many
    models share its taxon: two returned rows with the same abundance row
    are the same row, and when no row of the long abundance frame occurs
    twice, no row of the specification does. *)
Theorem build_spec_has_no_row_twice (collapse : Collapse) (t : Table string)
    (taxonomy : StrSeries) (models : SBMLDirectory) (rank : Rank) (cutoff : Q)
    (frame : list Long) (spec : list Spec) :
  abundance_frame collapse t taxonomy rank = Ok frame ->
  build_spec collapse t taxonomy models rank cutoff = Ok spec ->
  (forall r r' : Spec, In r spec -> In r' spec -> long r = long r' ->
                       r = r') /\
  (NoDup frame -> NoDup spec).
Proof.
  intros Hframe Hspec.
  apply build_spec_inv in Hspec. destruct Hspec as [merged [Hm ->]].
  apply merged_frame_inv in Hm.
  destruct Hm as [frame' [files [Hframe' [Hfiles [_ ->]]]]].
  rewrite Hframe in Hframe'. injection Hframe' as <-.
  destruct (model_files_NoDup _ _ _ Hfiles) as [Hnd Hsame].
  destruct (model_files_keyed _ _ _ Hfiles) as [f [Hf Hkey]].
  split.
  - intros r r' Hr Hr' Hlong.
    apply filter_In in Hr, Hr'. destruct Hr as [Hr _], Hr' as [Hr' _].
    apply in_merge in Hr, Hr'.
    destruct Hr as [Hmf [_ Hk]], Hr' as [Hmf' [_ Hk']].
    apply cell_eqb_eq in Hk, Hk'.
    assert (Hmodel : model_file r = model_file r').
    { apply Hsame; [exact Hmf | exact Hmf' | congruence |].
      rewrite Hf in Hmf. apply in_map_iff in Hmf.
      destruct Hmf as [k [<- Hin]]. rewrite (Hkey k Hin). discriminate. }
    destruct r, r'. simpl in *. congruence.
  - intros Hframe_nd. apply NoDup_filter. now apply NoDup_merge.
Qed.

Lemma build_spec_has_no_row_twice_witness :
  (forall r r' : Spec, In r Sample.spec -> In r' Sample.spec ->
                       long r = long r' -> r = r') /\
  (NoDup Sample.long_frame -> NoDup Sample.spec).
Proof.
  apply (build_spec_has_no_row_twice biom_collapse Sample.table
           Sample.taxonomy Sample.models genus Sample.cutoff
           Sample.long_frame Sample.spec).
  - vm_compute. reflexivity.
  - vm_compute. reflexivity.
Defined.

(** ** One community per sample *)

(** X14: when build returns, workflow receives one argument triple per
    sample that has a row in the specification, no sample twice; the triple
    of a sample holds the rows of the specification of that sample (at least
    one) and the path of the model of that sample. *)
Theorem build_makes_one_model_per_sample (collapse : Collapse)
    (fresh : CommunityModelDirectory) (t : Table string)
    (taxonomy : StrSeries) (models : SBMLDirectory) (rank : Rank)
    (threads : Z) (cutoff : Q) (out : CommunityModelDirectory) :
  outcome (build collapse fresh t taxonomy models rank threads cutoff)
  = Ok out ->
  exists args tax,
    build_spec collapse t taxonomy models rank cutoff = Ok tax /\
    calls (build collapse fresh t taxonomy models rank threads cutoff)
    = [workflow build_and_save args threads;
       tax_to_csv tax (manifest_path_maker fresh)] /\
    NoDup (map arg_sample args) /\
    (forall r : Spec, In r tax -> In (sample_id r) (map arg_sample args)) /\
    (forall s frame path,
       In (s, frame, path) args ->
       path = model_files_path_maker fresh s /\
       frame <> [] /\
       forall r : Spec, In r frame <-> In r tax /\ sample_id r = s).
Proof.
  unfold build.
  destruct (build_spec collapse t taxonomy models rank cutoff) as [tax | e];
    simpl; [| discriminate].
  destruct (has_column "sample_id" (sbml_manifest models)); simpl;
    [discriminate |].
  intros _. eexists. exists tax. split; [reflexivity |].
  split; [reflexivity |].
  set (ss := unique (map (fun r : Spec => sample_id r) tax)).
  split; [| split].
  - rewrite map_map. unfold arg_sample. simpl. rewrite map_id.
    apply NoDup_unique.
  - intros r Hr. rewrite map_map. unfold arg_sample. simpl. rewrite map_id.
    apply in_unique. apply (in_map (fun r : Spec => sample_id r)). exact Hr.
  - intros s frame path Hin. apply in_map_iff in Hin.
    destruct Hin as [s' [[= <- <- <-] Hs]].
    apply in_unique, in_map_iff in Hs. destruct Hs as [r0 [Hr0 Hin0]].
    assert (Hrows : forall r : Spec,
              In r (filter (fun r : Spec => String.eqb (sample_id r) s') tax)
              <-> In r tax /\ sample_id r = s')
      by (intros r; now rewrite filter_In, String.eqb_eq).
    split; [reflexivity |]. split; [| exact Hrows].
    intros Hnil. assert (H : In r0 []) by (rewrite <- Hnil; now apply Hrows).
    contradiction.
Qed.

Lemma build_makes_one_model_per_sample_witness :
  exists args tax,
    build_spec biom_collapse Sample.table Sample.taxonomy Sample.models genus
      Sample.cutoff = Ok tax /\
    calls (build biom_collapse Sample.community_models Sample.table
             Sample.taxonomy Sample.models genus 2 Sample.cutoff)
    = [workflow build_and_save args 2;
       tax_to_csv tax (manifest_path_maker Sample.community_models)] /\
    NoDup (map arg_sample args) /\
    (forall r : Spec, In r tax -> In (sample_id r) (map arg_sample args)) /\
    (forall s frame path,
       In (s, frame, path) args ->
       path = model_files_path_maker Sample.community_models s /\
       frame <> [] /\
       forall r : Spec, In r frame <-> In r tax /\ sample_id r = s).
Proof.
  apply (build_makes_one_model_per_sample biom_collapse
           Sample.community_models Sample.table Sample.taxonomy Sample.models
           genus 2 Sample.cutoff Sample.community_models).
  vm_compute. reflexivity.
Defined.

(** ** The model folder of grow *)

Lemma prefix_refl (s rest : string) : prefix s (s ++ rest) = true.
Proof.
  induction s as [| c s IH]; simpl; [now destruct rest |].
  destruct (ascii_dec c c); [exact IH | contradiction].
Qed.

Lemma replace_from_skips (old new s : string) (skip : nat) :
  (String.length s <= skip)%nat -> replace_from old new skip s = EmptyString.
Proof.
  revert skip. induction s as [| c s IH]; intros skip H; [reflexivity |].
  destruct skip as [| k]; simpl in *; [lia |]. apply IH. lia.
Qed.

Lemma replace_suffix (old dir : string) :
  old <> EmptyString -> no_match_inside old dir = true ->
  replace (dir ++ old) old "" = dir.
Proof.
  intros Hold. unfold replace. induction dir as [| c dir IH]; intros H.
  - destruct old as [| a old]; [contradiction |].
    change ("" ++ String a old)%string with (String a old).
    cbn [replace_from].
    rewrite <- (append_empty (String a old)) at 2.
    rewrite prefix_refl. simpl String.length.
    rewrite replace_from_skips by lia. reflexivity.
  - cbn [no_match_inside] in H. apply andb_true_iff in H.
    destruct H as [Hc Hdir]. apply negb_true_iff in Hc.
    change (String c dir ++ old)%string with (String c (dir ++ old)) in *.
    cbn [replace_from]. rewrite Hc. f_equal. now apply IH.
Qed.

(** X15: when the path of the model "blub" is a folder followed by
    blub.pickle, and blub.pickle starts nowhere earlier in that path, the
    model folder that grow hands to micom is that folder. *)
Theorem grow_finds_the_model_folder (mw : MwGrow)
    (fresh : MicomResultsDirectory) (models : CommunityModelDirectory)
    (medium : DataFrame) (tradeoff : Q) (threads : Z) (folder : string) :
  model_files_path_maker models "blub" = (folder ++ "blub.pickle")%string ->
  no_match_inside "blub.pickle" folder = true ->
  simulations (calls (grow mw fresh models medium tradeoff threads))
  = [(manifest models, folder, medium, tradeoff)].
Proof.
  intros Hpath Hfolder. unfold grow. rewrite Hpath.
  rewrite replace_suffix by (discriminate || exact Hfolder).
  simpl. destruct (mw _ _ medium tradeoff threads) as [[g e] | e];
    reflexivity.
Qed.

Lemma grow_finds_the_model_folder_witness :
  simulations (calls (grow Sample.simulate Sample.results
                        Sample.community_models Sample.medium (1 # 2) 4))
  = [(manifest Sample.community_models, "/models/", Sample.medium, 1 # 2)].
Proof.
  apply grow_finds_the_model_folder; reflexivity.
Defined.

(** ** The other registered ranges *)

Lemma is_integer_iff (v : Q) :
  is_integer v = true <-> exists n : Z, v == inject_Z n.
Proof.
  destruct v as [a b]. unfold is_integer, Qeq, inject_Z. cbn [Qnum Qden].
  rewrite Z.eqb_eq. split.
  - intros H. exists (a / Zpos b)%Z.
    pose proof (Z.div_mod a (Zpos b) ltac:(lia)) as Hdiv. lia.
  - intros [n H]. rewrite Z.mul_1_r in H. subst a.
    apply Z.mod_mul. discriminate.
Qed.

(** X16: the cutoff of build and the step of the tradeoff sweep are Float
    parameters and admit exactly the numbers of [0, 1), zero included; the
    threads of build and of grow are Int parameters and admit exactly the
    integers from 1 on; the threads of the tradeoff sweep admit exactly the
    integers, also zero and the negative ones. *)
Theorem registered_ranges (v : Q) :
  (accepts build_registration "cutoff" v = true <-> 0 <= v /\ v < 1) /\
  (accepts tradeoff_registration "step" v = true <-> 0 <= v /\ v < 1) /\
  (accepts build_registration "threads" v = true <->
   (exists n : Z, v == inject_Z n) /\ 1 <= v) /\
  (accepts grow_registration "threads" v = true <->
   (exists n : Z, v == inject_Z n) /\ 1 <= v) /\
  (accepts tradeoff_registration "threads" v = true <->
   exists n : Z, v == inject_Z n).
Proof.
  unfold accepts, admits, is_element. simpl.
  split; [| split; [| split; [| split]]].
  - rewrite andb_true_iff, Qle_bool_iff, Qlt_bool. tauto.
  - rewrite andb_true_iff, Qle_bool_iff, Qlt_bool. tauto.
  - rewrite andb_true_r, andb_true_iff, is_integer_iff, Qle_bool_iff.
    tauto.
  - rewrite andb_true_r, andb_true_iff, is_integer_iff, Qle_bool_iff.
    tauto.
  - rewrite andb_true_r. apply is_integer_iff.
Qed.

(** A thread count of one and a half is admitted nowhere; the tradeoff sweep
    admits the thread count -5, build and grow do not. *)
Example thread_counts_are_integers :
  accepts build_registration "threads" (3 # 2) = false /\
  accepts grow_registration "threads" (3 # 2) = false /\
  accepts tradeoff_registration "threads" (-5 # 2) = false /\
  accepts tradeoff_registration "threads" (-5 # 1) = true /\
  accepts build_registration "threads" (-5 # 1) = false /\
  accepts build_registration "threads" 4 = true.
Proof. repeat split. Qed.
